(** * Artifactory repository statistics: a shallow embedding of
    [repo-details-group.py]

    The script is a straight-line pipeline per repository name:
    [generate_aql_query] -> [execute_aql_query] -> [process_results] ->
    [remove_timezone] -> [write_to_excel], driven by [main] after
    [get_configuration].  Python values decoded from JSON are modelled by the
    type [json]; Python exceptions by the type [exn] and the error monad
    [result]; the console, the network and the file system by a trace of
    [event]s threaded through a small state-and-exception monad. *)

From Stdlib Require Import ZArith QArith Qround Qabs List String Ascii Bool Lia.
From Stdlib Require Import DecimalString.
Import ListNotations.

Local Open Scope string_scope.
Local Open Scope Z_scope.

Set Warnings "-register-all".

(** ** Python values *)

(** What [response.json()] can return.  JSON numbers are modelled as
    integers: the [size] and [downloads] fields of Artifactory are integer
    counts.  A JSON object is an association list whose first binding of a
    key is the dict entry.  Python's [None] is [JNull]. *)
Inductive json : Type :=
| JNull
| JBool (b : bool)
| JNum (n : Z)
| JStr (s : string)
| JList (l : list json)
| JObj (kv : list (string * json)).

(** [bool(v)] for a decoded value: [None], [False], [0], the empty string,
    the empty list and the empty dict are falsy. *)
Definition truthy (v : json) : bool :=
  match v with
  | JNull => false
  | JBool b => b
  | JNum n => negb (n =? 0)
  | JStr s => negb (String.eqb s EmptyString)
  | JList l => match l with [] => false | _ :: _ => true end
  | JObj kv => match kv with [] => false | _ :: _ => true end
  end.

(** ** Exceptions *)

Inductive exn : Type :=
| KeyError (key : string)
| IndexError
| TypeError
| AttributeError
| ValueError (msg : string).

Inductive result (A : Type) : Type :=
| Ok (a : A)
| Raise (e : exn).
Arguments Ok {A} a.
Arguments Raise {A} e.

Definition rbind {A B : Type} (m : result A) (k : A -> result B) : result B :=
  match m with
  | Ok a => k a
  | Raise e => Raise e
  end.

Declare Scope result_scope.
Delimit Scope result_scope with result.
Notation "x <- m ;; k" := (rbind m (fun x => k))
  (at level 61, m at next level, right associativity) : result_scope.
Local Open Scope result_scope.

Definition raises {A : Type} (m : result A) : bool :=
  match m with Ok _ => false | Raise _ => true end.

(** Evaluation of a list comprehension: elements are produced left to
    right and the first exception aborts the whole comprehension. *)
Fixpoint mapM {A B : Type} (f : A -> result B) (l : list A) : result (list B) :=
  match l with
  | [] => Ok []
  | a :: l' => b <- f a ;; bs <- mapM f l' ;; Ok (b :: bs)
  end.

(** ** Dictionary and sequence access *)

Fixpoint assoc (k : string) (kv : list (string * json)) : option json :=
  match kv with
  | [] => None
  | (k', v) :: kv' => if String.eqb k k' then Some v else assoc k kv'
  end.

(** [obj.get(key, default)]: only a dict has the method. *)
Definition py_get (obj : json) (key : string) (default : json) : result json :=
  match obj with
  | JObj kv =>
      match assoc key kv with
      | Some v => Ok v
      | None => Ok default
      end
  | _ => Raise AttributeError
  end.

(** [obj[0]].  A list or a string yields its first element or raises
    [IndexError] when empty; a decoded dict has string keys only, so the
    integer key 0 is missing; the other values are not subscriptable. *)
Definition py_index0 (obj : json) : result json :=
  match obj with
  | JList (x :: _) => Ok x
  | JList [] => Raise IndexError
  | JStr (String c _) => Ok (JStr (String c EmptyString))
  | JStr EmptyString => Raise IndexError
  | JObj _ => Raise (KeyError "0")
  | JNull | JBool _ | JNum _ => Raise TypeError
  end.

(** [for item in obj]: a list yields its elements, a string its
    characters, a dict its keys; the other values are not iterable. *)
Fixpoint chars (s : string) : list json :=
  match s with
  | EmptyString => []
  | String c s' => JStr (String c EmptyString) :: chars s'
  end.

Definition py_iter (obj : json) : result (list json) :=
  match obj with
  | JList l => Ok l
  | JStr s => Ok (chars s)
  | JObj kv => Ok (map (fun p => JStr (fst p)) kv)
  | JNull | JBool _ | JNum _ => Raise TypeError
  end.

(** ** Result normalizer: one row per item *)

(** The dict built for each item by the comprehension of
    [process_results]. *)
Record Row : Type := mkRow {
  repo : json;
  path : json;
  name : json;
  type : json;
  size : json;
  created : json;
  created_by : json;
  modified : json;
  modified_by : json;
  updated : json;
  downloads : json;
  downloaded_by : json;
  last_downloaded : json
}.

(** The fallback of [item.get("stats", [{}])]. *)
Definition stats_default : json := JList [JObj []].

(** [item.get("stats", [{}])[0].get(key, default)]. *)
Definition stat_field (item : json) (key : string) (default : json) : result json :=
  stats <- py_get item "stats" stats_default ;;
  first <- py_index0 stats ;;
  py_get first key default.

Definition process_item (item : json) : result Row :=
  v_repo <- py_get item "repo" JNull ;;
  v_path <- py_get item "path" JNull ;;
  v_name <- py_get item "name" JNull ;;
  v_type <- py_get item "type" JNull ;;
  v_size <- py_get item "size" JNull ;;
  v_created <- py_get item "created" JNull ;;
  v_created_by <- py_get item "created_by" JNull ;;
  v_modified <- py_get item "modified" JNull ;;
  v_modified_by <- py_get item "modified_by" JNull ;;
  v_updated <- py_get item "updated" JNull ;;
  v_downloads <- stat_field item "downloads" (JNum 0) ;;
  v_downloaded_by <- stat_field item "downloaded_by" (JStr "N/A") ;;
  v_last_downloaded <- stat_field item "downloaded" (JStr "N/A") ;;
  Ok (mkRow v_repo v_path v_name v_type v_size v_created v_created_by
            v_modified v_modified_by v_updated
            v_downloads v_downloaded_by v_last_downloaded).

(** The list comprehension [processed_results]. *)
Definition processed_results (res : json) : result (list Row) :=
  results <- py_get res "results" (JList []) ;;
  items <- py_iter results ;;
  mapM process_item items.

(** ** Tables *)

(** A column.  [SObject] holds Python objects as decoded; [SDatetime] is a
    [datetime64[ns]] column, time-zone aware when [tz] is [Some offset]
    (minutes east of UTC), whose cells are nanoseconds since the epoch
    (instants for an aware column, wall-clock readings for a naive one) and
    [None] for [NaT]; [SInt] and [SFloat] are numeric columns with [None]
    for [NaN]. *)
Inductive Series : Type :=
| SObject (cells : list json)
| SDatetime (tz : option Z) (stamps : list (option Z))
| SInt (ints : list (option Z))
| SFloat (floats : list (option Q)).

(** A [DataFrame]: the number of index entries and the columns in order. *)
Record DataFrame : Type := mkDataFrame {
  nrows : nat;
  columns : list (string * Series)
}.

Fixpoint column (c : string) (cols : list (string * Series)) : option Series :=
  match cols with
  | [] => None
  | (c', s) :: cols' => if String.eqb c c' then Some s else column c cols'
  end.

(** [c in df.columns]. *)
Definition has_column (df : DataFrame) (c : string) : bool :=
  match column c (columns df) with Some _ => true | None => false end.

(** [df[c]] as an expression. *)
Definition getitem (df : DataFrame) (c : string) : result Series :=
  match column c (columns df) with
  | Some s => Ok s
  | None => Raise (KeyError c)
  end.

Fixpoint set_column (c : string) (s : Series) (cols : list (string * Series))
  : list (string * Series) :=
  match cols with
  | [] => [(c, s)]
  | (c', s') :: cols' =>
      if String.eqb c c' then (c, s) :: cols' else (c', s') :: set_column c s cols'
  end.

(** [df[c] = s]: replaces the column in place, or appends a new one. *)
Definition setitem (df : DataFrame) (c : string) (s : Series) : DataFrame :=
  mkDataFrame (nrows df) (set_column c s (columns df)).

(** [pd.DataFrame(rows)] for a list of the dicts above: no row gives a
    frame without any column; otherwise the thirteen keys, in the order
    of the dict literal. *)
Definition DataFrame_of_rows (rows : list Row) : DataFrame :=
  match rows with
  | [] => mkDataFrame 0 []
  | _ :: _ =>
      let col (f : Row -> json) := SObject (map f rows) in
      mkDataFrame (List.length rows)
        [ ("repo", col repo); ("path", col path); ("name", col name);
          ("type", col type); ("size", col size); ("created", col created);
          ("created_by", col created_by); ("modified", col modified);
          ("modified_by", col modified_by); ("updated", col updated);
          ("downloads", col downloads); ("downloaded_by", col downloaded_by);
          ("last_downloaded", col last_downloaded) ]
  end.

(** ** Size conversion *)

(** Python's [round(x, 2)] on the exact value [x = num / den]: the nearest
    multiple of 1/100, ties going to the even multiple.  The result is the
    number of hundredths. *)
Definition round_half_even_hundredths (num den : Z) : Z :=
  let scaled := num * 100 in
  let f := scaled / den in
  let r := scaled mod den in
  if 2 * r <? den then f
  else if den <? 2 * r then f + 1
  else if Z.even f then f else f + 1.

(** [bytes_to_gb]: [round(bytes_size / (1024 ** 3), 2)].  Floats are
    modelled by the rationals they denote: the true division of an integer
    below 2^53 in magnitude by the power of two 1024^3 is exact in binary
    floating point, and [round] returns the double nearest to the decimal
    with two places computed here. *)
Definition bytes_to_gb (bytes_size : Z) : Q :=
  Qred (round_half_even_hundredths bytes_size (1024 ^ 3) # 100).

(** ** Download ranges *)

Inductive bound : Type :=
| Fin (z : Z)
| Inf.

Definition lt_bound (b : bound) (x : Z) : bool :=
  match b with Fin z => z <? x | Inf => false end.

Definition le_bound (x : Z) (b : bound) : bool :=
  match b with Fin z => x <=? z | Inf => true end.

(** [pd.cut(x, bins, labels=labels)] with the defaults [right=True] and
    [include_lowest=False]: the label of the interval [(lo, hi]] that
    contains [x], and no label ([NaN]) when there is none. *)
Fixpoint cut (x : Z) (bins : list bound) (labels : list string) : option string :=
  match bins, labels with
  | lo :: ((hi :: _) as bins'), lab :: labels' =>
      if lt_bound lo x && le_bound x hi then Some lab else cut x bins' labels'
  | _, _ => None
  end.

Definition download_bins : list bound :=
  [Fin 0; Fin 10; Fin 20; Fin 30; Fin 40; Fin 50; Inf].

Definition download_labels : list string :=
  ["1-10"; "11-20"; "21-30"; "31-40"; "41-50"; "50+"].

Definition download_range (d : option Z) : option string :=
  match d with
  | Some x => cut x download_bins download_labels
  | None => None
  end.

Definition label_eqb (a : option string) (lab : string) : bool :=
  match a with
  | Some l => String.eqb l lab
  | None => false
  end.

(** [df.groupby(download_ranges)['downloads'].count().reset_index(name="Count")]:
    one line per category, in the order of the labels, with the number of
    rows that fall into it; rows without a category belong to no group. *)
Definition download_summary (ds : list (option Z)) : list (string * nat) :=
  let ranges := map download_range ds in
  map (fun lab => (lab, List.length (filter (fun r => label_eqb r lab) ranges)))
      download_labels.

(** [len(df[df["downloads"] == 0])]. *)
Definition zero_downloads (ds : list (option Z)) : nat :=
  List.length (filter (fun d => match d with Some x => x =? 0 | None => false end) ds).

(** A numeric column as pandas infers it from the decoded cells: integers,
    with [NaN] for [None] when the column holds at least one integer.
    Arithmetic on a column that holds anything else raises [TypeError]. *)
Definition numeric_cell (v : json) : option (option Z) :=
  match v with
  | JNum n => Some (Some n)
  | JNull => Some None
  | _ => None
  end.

Fixpoint numeric_cells (cells : list json) : option (list (option Z)) :=
  match cells with
  | [] => Some []
  | v :: cells' =>
      match numeric_cell v, numeric_cells cells' with
      | Some x, Some xs => Some (x :: xs)
      | _, _ => None
      end
  end.

Definition is_JNum (v : json) : bool :=
  match v with JNum _ => true | _ => false end.

Definition numeric (s : Series) : result (list (option Z)) :=
  match s with
  | SInt xs => Ok xs
  | SObject cells =>
      match numeric_cells cells with
      | Some xs => if existsb is_JNum cells then Ok xs else Raise TypeError
      | None => Raise TypeError
      end
  | _ => Raise TypeError
  end.

(** ** Calendar fields and [strftime] *)

(** A naive [datetime] as returned by [datetime.now()]. *)
Record datetime : Type := mkDatetime {
  year : Z;
  month : Z;
  day : Z;
  hour : Z;
  minute : Z;
  second : Z;
  microsecond : Z
}.

Definition valid_datetime (d : datetime) : Prop :=
  1000 <= year d <= 9999 /\ 1 <= month d <= 12 /\ 1 <= day d <= 31 /\
  0 <= hour d <= 23 /\ 0 <= minute d <= 59 /\ 0 <= second d <= 59 /\
  0 <= microsecond d <= 999999.

Definition digit (n : Z) : ascii := ascii_of_nat (48 + Z.to_nat (n mod 10)).

(** [%d], [%H], [%M]: two digits, zero padded. *)
Definition pad2 (n : Z) : string :=
  String (digit (n / 10)) (String (digit n) EmptyString).

(** [%Y] for a year of four digits. *)
Definition pad4 (n : Z) : string :=
  String (digit (n / 1000)) (String (digit (n / 100)) (pad2 n)).

(** [%b] in the C locale. *)
Definition month_abbr (m : Z) : string :=
  match m with
  | 1 => "Jan" | 2 => "Feb" | 3 => "Mar" | 4 => "Apr"
  | 5 => "May" | 6 => "Jun" | 7 => "Jul" | 8 => "Aug"
  | 9 => "Sep" | 10 => "Oct" | 11 => "Nov" | _ => "Dec"
  end.

(** [d.strftime('%Y%b%dT%H%MHZ')]. *)
Definition strftime_stamp (d : datetime) : string :=
  pad4 (year d) ++ month_abbr (month d) ++ pad2 (day d) ++ "T" ++
  pad2 (hour d) ++ pad2 (minute d) ++ "HZ".

(** The [filename] of [write_to_excel]:
    [f"{repository_name}-{timestamp}-stats.xlsx"]. *)
Definition filename (repository_name : string) (now : datetime) : string :=
  repository_name ++ "-" ++ strftime_stamp now ++ "-stats.xlsx".

(** Calendar date of a day number counted from 1970-01-01 (proleptic
    Gregorian calendar), as [.dt.year] and [.dt.month] read it off a
    [datetime64[ns]] cell. *)
Definition civil_from_days (days : Z) : Z * Z * Z :=
  let z := days + 719468 in
  let era := z / 146097 in
  let doe := z - era * 146097 in
  let yoe := (doe - doe / 1460 + doe / 36524 - doe / 146096) / 365 in
  let doy := doe - (365 * yoe + yoe / 4 - yoe / 100) in
  let mp := (5 * doy + 2) / 153 in
  let d := doy - (153 * mp + 2) / 5 + 1 in
  let m := if mp <? 10 then mp + 3 else mp - 9 in
  let y := yoe + era * 400 + (if m <=? 2 then 1 else 0) in
  (y, m, d).

Definition ns_per_day : Z := 86400 * 1000000000.

Definition year_of_ns (ns : Z) : Z := fst (fst (civil_from_days (ns / ns_per_day))).
Definition month_of_ns (ns : Z) : Z := snd (fst (civil_from_days (ns / ns_per_day))).

(** [strftime('%b %Y')] of a cell; [NaT] gives [NaN]. *)
Definition month_year_cell (c : option Z) : json :=
  match c with
  | Some ns => JStr (month_abbr (month_of_ns ns) ++ " " ++ pad4 (year_of_ns ns))
  | None => JNull
  end.

(** ** Configuration *)

(** The environment after [load_dotenv()]. *)
Record Environment : Type := mkEnvironment {
  ARTIFACTORY_URL : option string;
  USERNAME : option string;
  PASSWORD : option string;
  REPOSITORY_NAMES : option string
}.

(** The flags given on the command line; [None] for a flag that is not
    given. *)
Record CommandLine : Type := mkCommandLine {
  flag_artifactory_url : option string;
  flag_username : option string;
  flag_password : option string;
  flag_repository_names : option (list string)
}.

(** [s.split(',')]. *)
Fixpoint split_comma (s : string) : list string :=
  match s with
  | EmptyString => [EmptyString]
  | String c s' =>
      if Ascii.eqb c ","%char then EmptyString :: split_comma s'
      else
        match split_comma s' with
        | piece :: pieces => String c piece :: pieces
        | [] => [String c EmptyString]
        end
  end.

(** An optional flag of [argparse] with [default=...]: the value given on
    the command line, and the default otherwise. *)
Definition with_default {A : Type} (flag : option A) (default : A) : A :=
  match flag with
  | Some v => v
  | None => default
  end.

(** [not v] for a value that is a string or [None]. *)
Definition missing (v : option string) : bool :=
  match v with
  | None => true
  | Some s => String.eqb s EmptyString
  end.

(** [not l] for a list. *)
Definition no_names (l : list string) : bool :=
  match l with [] => true | _ :: _ => false end.

Definition configuration_error : exn :=
  ValueError "One or more required values are missing: ARTIFACTORY_URL, USERNAME, PASSWORD, REPOSITORY_NAMES".

(** [args] after [parser.parse_args()]. *)
Definition args_artifactory_url (env : Environment) (cli : CommandLine) : option string :=
  with_default (option_map Some (flag_artifactory_url cli)) (ARTIFACTORY_URL env).

Definition args_username (env : Environment) (cli : CommandLine) : option string :=
  with_default (option_map Some (flag_username cli)) (USERNAME env).

Definition args_password (env : Environment) (cli : CommandLine) : option string :=
  with_default (option_map Some (flag_password cli)) (PASSWORD env).

Definition args_repository_names (env : Environment) (cli : CommandLine) : list string :=
  let repository_names :=
    match REPOSITORY_NAMES env with
    | None => []
    | Some names => split_comma names
    end in
  with_default (flag_repository_names cli) repository_names.

Definition get_configuration (env : Environment) (cli : CommandLine)
  : result (string * string * string * list string) :=
  if missing (args_artifactory_url env cli) || missing (args_username env cli)
     || missing (args_password env cli) || no_names (args_repository_names env cli)
  then Raise configuration_error
  else
    match args_artifactory_url env cli, args_username env cli, args_password env cli with
    | Some url, Some user, Some pass => Ok (url, user, pass, args_repository_names env cli)
    | _, _, _ => Raise configuration_error
    end.

(** ** Query builder *)

Definition nl : string := String (ascii_of_nat 10) EmptyString.
Definition dq : string := String (ascii_of_nat 34) EmptyString.
Definition quoted (s : string) : string := dq ++ s ++ dq.

Definition generate_aql_query (repository_name : string) : string :=
  nl ++ "items.find({" ++ nl ++
  "    " ++ quoted "repo" ++ ": " ++ quoted repository_name ++ nl ++
  "}).include(" ++
  String.concat ", "
    (map quoted ["name"; "repo"; "path"; "type"; "size"; "created"; "created_by";
                 "modified"; "modified_by"; "updated"; "stat"]) ++
  ")" ++ nl.

(** ** The outside world *)

(** What [requests.post] followed by [raise_for_status] and [json] can
    meet: an exception of the transport layer (a [RequestException] with
    its text), or a response with its status code, reason phrase and body,
    the body being the decoded JSON value or the text of the decoding
    error. *)
Inductive http_outcome : Type :=
| TransportError (text : string)
| Response (status : Z) (reason : string) (body : json + string).

(** The workbook saved by [write_to_excel]: the file name, the sheet
    "Data" (the table with its derived columns, a header line and one line
    per row), and of the sheet "Summary" the zero-download count and the
    download-range table. *)
Record Workbook : Type := mkWorkbook {
  wb_filename : string;
  wb_data : DataFrame;
  wb_zero_downloads : nat;
  wb_download_summary : list (string * nat)
}.

Inductive event : Type :=
| EPrint (line : string)
| EPost (url username password data : string)
| ESave (wb : Workbook).

Record World : Type := mkWorld {
  trace : list event;
  posts : nat;
  clock_reads : nat
}.

Definition initial_world : World := mkWorld [] 0 0.

(** State and exceptions: a computation transforms the world and returns
    or raises. *)
Definition M (A : Type) : Type := World -> World * result A.

Definition ret {A : Type} (a : A) : M A := fun w => (w, Ok a).

Definition bind {A B : Type} (m : M A) (k : A -> M B) : M B :=
  fun w =>
    match m w with
    | (w', Ok a) => k a w'
    | (w', Raise e) => (w', Raise e)
    end.

Definition lift {A : Type} (r : result A) : M A := fun w => (w, r).

Definition emit (e : event) : M unit :=
  fun w => (mkWorld (trace w ++ [e]) (posts w) (clock_reads w), Ok tt).

Definition print (line : string) : M unit := emit (EPrint line).

Declare Scope io_scope.
Delimit Scope io_scope with io.
Notation "x <- m ;; k" := (bind m (fun x => k))
  (at level 61, m at next level, right associativity) : io_scope.
Notation "m ;;; k" := (bind m (fun _ => k))
  (at level 61, right associativity) : io_scope.

(** A [for] loop: the body runs on each element in order, and an
    exception leaves the loop. *)
Fixpoint for_each {A : Type} (l : list A) (body : A -> M unit) : M unit :=
  match l with
  | [] => ret tt
  | a :: l' => bind (body a) (fun _ => for_each l' body)
  end.

Definition is_post (e : event) : bool :=
  match e with EPost _ _ _ _ => true | _ => false end.

Definition is_save (e : event) : bool :=
  match e with ESave _ => true | _ => false end.

(** ** The pipeline *)

Section Pipeline.

(** The collaborators the script calls and does not define.
    [parse_column] is the parser of [pd.to_datetime(..., errors='coerce')]
    on a column of decoded objects: the time zone shared by the parsed
    cells, if any, and the cells, [NaT] where a cell does not parse; no
    datetime column results when the cells disagree on the time zone.
    [network] answers the [n]-th request; [clock] is the [n]-th reading of
    [datetime.now()]; [render_charts] is the drawing and embedding of the
    three charts, which returns or raises. *)
Variable parse_column : list json -> option (option Z * list (option Z)).
Variable network : nat -> string -> string -> string -> string -> http_outcome.
Variable clock : nat -> datetime.
Variable render_charts : DataFrame -> result unit.

(** [pd.to_datetime(s, errors='coerce')]: a datetime column is returned
    as it is, integers are nanoseconds since the epoch, objects are
    parsed. *)
Definition to_datetime (s : Series) : result Series :=
  match s with
  | SDatetime tz stamps => Ok (SDatetime tz stamps)
  | SInt ints => Ok (SDatetime None ints)
  | SFloat floats => Ok (SDatetime None (map (option_map Qfloor) floats))
  | SObject cells =>
      match parse_column cells with
      | Some (tz, stamps) => Ok (SDatetime tz stamps)
      | None => Raise (ValueError "Mixed timezones detected")
      end
  end.

(** [s.dt.tz]: the accessor exists on datetime columns only. *)
Definition dt_tz (s : Series) : result (option Z) :=
  match s with
  | SDatetime tz _ => Ok tz
  | _ => Raise AttributeError
  end.

Definition ns_per_minute : Z := 60 * 1000000000.

(** [s.dt.tz_localize(None)]: the wall-clock reading of each instant in
    the time zone of the column, without the zone. *)
Definition tz_localize_none (s : Series) : result Series :=
  match s with
  | SDatetime (Some offset) stamps =>
      Ok (SDatetime None (map (option_map (fun t => t + offset * ns_per_minute)) stamps))
  | SDatetime None stamps => Ok (SDatetime None stamps)
  | _ => Raise AttributeError
  end.

Definition remove_timezone (df : DataFrame) : result DataFrame :=
  (c <- getitem df "created" ;;
   c <- to_datetime c ;;
   let df := setitem df "created" c in
   m <- getitem df "modified" ;;
   m <- to_datetime m ;;
   let df := setitem df "modified" m in
   c <- getitem df "created" ;;
   tz <- dt_tz c ;;
   df <- match tz with
         | Some _ => c' <- tz_localize_none c ;; Ok (setitem df "created" c')
         | None => Ok df
         end ;;
   m <- getitem df "modified" ;;
   tz <- dt_tz m ;;
   match tz with
   | Some _ => m' <- tz_localize_none m ;; Ok (setitem df "modified" m')
   | None => Ok df
   end)%result.

(** [s.dt.year] and [s.dt.month]. *)
Definition dt_field (field : Z -> Z) (s : Series) : result Series :=
  match s with
  | SDatetime _ stamps => Ok (SInt (map (option_map field) stamps))
  | _ => Raise AttributeError
  end.

(** [s.dt.strftime('%b %Y')]. *)
Definition dt_month_year (s : Series) : result Series :=
  match s with
  | SDatetime _ stamps => Ok (SObject (map month_year_cell stamps))
  | _ => Raise AttributeError
  end.

Local Open Scope io_scope.

(** The text of the [HTTPError] that [raise_for_status] builds. *)
Definition http_error_text (status : Z) (reason url : string) : string :=
  NilZero.string_of_int (Z.to_int status) ++
  (if status <? 500 then " Client Error: " else " Server Error: ") ++
  reason ++ " for url: " ++ url.

(** The [try] block of [execute_aql_query]: the decoded body, or the text
    of the [RequestException] raised.  [requests.post] raises on a failure
    of the transport layer, [raise_for_status] on the status codes 400 to
    599, and [response.json()] on a body that is not JSON. *)
Definition try_request (outcome : http_outcome) (url : string) : json + string :=
  match outcome with
  | TransportError e => inr e
  | Response status reason body =>
      if (400 <=? status) && (status <? 600)
      then inr (http_error_text status reason url)
      else body
  end.

(** [execute_aql_query]: the decoded body, or [None] after printing the
    diagnostic. *)
Definition execute_aql_query (aql_query artifactory_url username password : string)
  : M json :=
  let url := (artifactory_url ++ "/api/search/aql")%string in
  fun w =>
    let w1 := mkWorld (trace w ++ [EPost url username password aql_query])
                      (S (posts w)) (clock_reads w) in
    match try_request (network (posts w) url username password aql_query) url with
    | inl decoded => (w1, Ok decoded)
    | inr e => (print ("Error executing AQL query: " ++ e) ;;; ret JNull) w1
    end.

Definition process_results (res : json) : M DataFrame :=
  rows <- lift (processed_results res) ;;
  let df := DataFrame_of_rows rows in
  if has_column df "created"
  then
    c <- lift (getitem df "created") ;;
    c <- lift (to_datetime c) ;;
    ret (setitem df "created" c)
  else
    print "Warning: 'created' column is missing." ;;;
    ret df.

(** [datetime.now()]. *)
Definition datetime_now : M datetime :=
  fun w => (mkWorld (trace w) (posts w) (S (clock_reads w)), Ok (clock (clock_reads w))).

(** [write_to_excel].  Of the workbook, the model keeps the file name,
    the sheet "Data" and the two parts of the sheet "Summary" that depend
    on the download counts; the group-by tables by year, by month and by
    user are read-only on the table and are left out; the charts are
    [render_charts].  The workbook is saved when the [with] block is left,
    also when the block is left by an exception. *)
Definition write_to_excel (df : DataFrame) (repository_name : string) : M unit :=
  c <- lift (getitem df "created") ;;
  years <- lift (dt_field year_of_ns c) ;;
  let df := setitem df "year" years in
  c <- lift (getitem df "created") ;;
  months <- lift (dt_field month_of_ns c) ;;
  let df := setitem df "month" months in
  sizes <- lift (getitem df "size") ;;
  sizes <- lift (numeric sizes) ;;
  let df := setitem df "size_in_gb" (SFloat (map (option_map bytes_to_gb) sizes)) in
  ds <- lift (getitem df "downloads") ;;
  ds <- lift (numeric ds) ;;
  let summary := download_summary ds in
  _ <- lift (getitem df "name") ;;
  c <- lift (getitem df "created") ;;
  month_years <- lift (dt_month_year c) ;;
  let df := setitem df "month_year" month_years in
  _ <- lift (getitem df "created_by") ;;
  now <- datetime_now ;;
  let file := filename repository_name now in
  emit (ESave (mkWorkbook file df (zero_downloads ds) summary)) ;;;
  lift (render_charts df) ;;;
  print ("Excel file '" ++ file ++ "' created successfully!").

(** The body of the loop of [main]. *)
Definition process_repository (artifactory_url username password : string)
    (repository_name : string) : M unit :=
  print ("Processing repository: " ++ repository_name) ;;;
  let aql_query := generate_aql_query repository_name in
  print ("Generated AQL query: " ++ aql_query) ;;;
  res <- execute_aql_query aql_query artifactory_url username password ;;
  if truthy res
  then
    df <- process_results res ;;
    df <- lift (remove_timezone df) ;;
    write_to_excel df repository_name
  else
    print ("Failed to retrieve data for repository " ++ repository_name ++ ".").

Definition main (env : Environment) (cli : CommandLine) : M unit :=
  cfg <- lift (get_configuration env cli) ;;
  let '(artifactory_url, username, password, repository_names) := cfg in
  for_each repository_names (process_repository artifactory_url username password).

End Pipeline.

(** ** A concrete world for examples *)

(** A parser for the timestamps Artifactory emits,
    [YYYY-MM-DDTHH:MM:SS.mmmZ]; every other cell is [NaT]. *)
Definition undigit (c : ascii) : option Z :=
  let n := Z.of_nat (nat_of_ascii c) - 48 in
  if (0 <=? n) && (n <=? 9) then Some n else None.

Fixpoint number (cs : list ascii) (acc : Z) : option Z :=
  match cs with
  | [] => Some acc
  | c :: cs' =>
      match undigit c with
      | Some n => number cs' (10 * acc + n)
      | None => None
      end
  end.

Definition days_from_civil (y m d : Z) : Z :=
  let y' := if m <=? 2 then y - 1 else y in
  let era := y' / 400 in
  let yoe := y' - era * 400 in
  let doy := (153 * (if 2 <? m then m - 3 else m + 9) + 2) / 5 + d - 1 in
  let doe := yoe * 365 + yoe / 4 - yoe / 100 + doy in
  era * 146097 + doe - 719468.

Definition iso8601_utc (s : string) : option Z :=
  match list_ascii_of_string s with
  | [y1; y2; y3; y4; a; m1; m2; b; d1; d2; t; h1; h2; c; n1; n2; d; s1; s2; e;
     f1; f2; f3; z] =>
      if Ascii.eqb a "-" && Ascii.eqb b "-" && Ascii.eqb t "T" && Ascii.eqb c ":"
         && Ascii.eqb d ":" && Ascii.eqb e "." && Ascii.eqb z "Z"
      then
        match number [y1; y2; y3; y4] 0, number [m1; m2] 0, number [d1; d2] 0,
              number [h1; h2] 0, number [n1; n2] 0, number [s1; s2] 0,
              number [f1; f2; f3] 0 with
        | Some y, Some m, Some dd, Some h, Some mi, Some sec, Some ms =>
            Some (((((days_from_civil y m dd * 24 + h) * 60 + mi) * 60 + sec) * 1000 + ms)
                  * 1000000)
        | _, _, _, _, _, _, _ => None
        end
      else None
  | _ => None
  end.

Definition iso8601_utc_cell (v : json) : option Z :=
  match v with
  | JStr s => iso8601_utc s
  | _ => None
  end.

Definition is_some {A : Type} (o : option A) : bool :=
  match o with Some _ => true | None => false end.

Definition iso8601_utc_column (cells : list json) : option (option Z * list (option Z)) :=
  let stamps := map iso8601_utc_cell cells in
  Some (if existsb is_some stamps then Some 0 else None, stamps).

Definition sample_item_with_stats : json :=
  JObj [ ("repo", JStr "libs-release"); ("path", JStr "org/acme/app/1.0");
         ("name", JStr "app-1.0.jar"); ("type", JStr "file");
         ("size", JNum 1073741824);
         ("created", JStr "2024-01-15T10:30:00.000Z"); ("created_by", JStr "alice");
         ("modified", JStr "2024-01-16T08:00:00.000Z"); ("modified_by", JStr "alice");
         ("updated", JStr "2024-01-16T08:00:00.000Z");
         ("stats", JList [JObj [ ("downloads", JNum 10);
                                 ("downloaded_by", JStr "bob");
                                 ("downloaded", JStr "2024-02-01T00:00:00.000Z") ]]) ].

Definition sample_item_without_stats : json :=
  JObj [ ("repo", JStr "libs-release"); ("path", JStr "org/acme/app/1.1");
         ("name", JStr "app-1.1.jar"); ("type", JStr "file");
         ("size", JNum 134217728);
         ("created", JStr "2024-03-02T09:00:00.000Z"); ("created_by", JStr "carol");
         ("modified", JStr "2024-03-02T09:00:00.000Z"); ("modified_by", JStr "carol");
         ("updated", JStr "2024-03-02T09:00:00.000Z") ].

Definition sample_item_empty_stats : json :=
  JObj [ ("repo", JStr "libs-release"); ("name", JStr "app-1.2.jar");
         ("size", JNum 1); ("stats", JList []) ].

Definition sample_range (total : Z) : json :=
  JObj [ ("start_pos", JNum 0); ("end_pos", JNum total); ("total", JNum total) ].

Definition sample_response : json :=
  JObj [ ("results", JList [sample_item_with_stats; sample_item_without_stats]);
         ("range", sample_range 2) ].

(** The answer of Artifactory for a repository without items. *)
Definition empty_response : json :=
  JObj [ ("results", JList []); ("range", sample_range 0) ].

Definition sample_environment : Environment :=
  mkEnvironment (Some "https://artifactory.example.org/artifactory")
                (Some "reporter") (Some "secret") (Some "libs-release,libs-snapshot").

Definition no_flags : CommandLine := mkCommandLine None None None None.

Definition sample_clock (n : nat) : datetime :=
  mkDatetime 2024 4 1 12 (Z.of_nat n) 30 0.

Definition charts_ok (df : DataFrame) : result unit := Ok tt.

(** A server that answers every query with the same outcome. *)
Definition constant_network (outcome : http_outcome)
  : nat -> string -> string -> string -> string -> http_outcome :=
  fun _ _ _ _ _ => outcome.

(** A server that is down for the first request and answers the later
    ones. *)
Definition flaky_network (n : nat) (url username password data : string) : http_outcome :=
  match n with
  | O => TransportError "Connection refused"
  | S _ => Response 200 "OK" (inl sample_response)
  end.

(** The cell of a column of objects at a row. *)
Definition cell (df : DataFrame) (c : string) (i : nat) : option json :=
  match column c (columns df) with
  | Some (SObject cells) => nth_error cells i
  | _ => None
  end.

(** A column is a naive datetime column. *)
Definition naive (df : DataFrame) (c : string) : bool :=
  match column c (columns df) with
  | Some (SDatetime None _) => true
  | _ => false
  end.

(** The outcomes [execute_aql_query] is specified to absorb: an exception
    of the transport layer, or a response with an error status. *)
Definition transport_or_http_error (outcome : http_outcome) : Prop :=
  match outcome with
  | TransportError _ => True
  | Response status _ _ => 400 <= status < 600
  end.

(** The sample response after [process_results], and after
    [remove_timezone]. *)
Definition sample_table : DataFrame :=
  Eval vm_compute in
    match process_results iso8601_utc_column sample_response initial_world with
    | (_, Ok df) => df
    | (_, Raise _) => mkDataFrame 0 []
    end.

Definition sample_naive_table : DataFrame :=
  Eval vm_compute in
    match remove_timezone iso8601_utc_column sample_table with
    | Ok df => df
    | Raise _ => mkDataFrame 0 []
    end.

Definition sample_warm_world : World :=
  Eval vm_compute in
    fst (process_results iso8601_utc_column sample_response initial_world).

Definition empty_stats_response : json :=
  JObj [ ("results", JList [sample_item_with_stats; sample_item_empty_stats]) ].

(** A table whose "created" column is aware, two hours east of UTC, and
    whose "modified" column is still text; and the table after
    [remove_timezone]. *)
Definition aware_table : DataFrame :=
  mkDataFrame 2
    [ ("name", SObject [JStr "app-1.0.jar"; JStr "app-1.1.jar"]);
      ("created", SDatetime (Some 120) [Some 1705314600000000000; None]);
      ("modified", SObject [JStr "2024-01-16T08:00:00.000Z"; JStr "yesterday"]) ].

Definition aware_table_stripped : DataFrame :=
  Eval vm_compute in
    match remove_timezone iso8601_utc_column aware_table with
    | Ok df => df
    | Raise _ => mkDataFrame 0 []
    end.


(** ** The sheet "Summary" *)

(** The [startrow] arguments of the four tables that [write_to_excel]
    stacks under the key-metric block, from the numbers of lines
    ([shape[0]]) of the blocks above. *)
Definition startrow_download_summary (summary_rows : nat) : nat :=
  (summary_rows + 2)%nat.

Definition startrow_yearly_summary (summary_rows download_rows : nat) : nat :=
  (summary_rows + download_rows + 4)%nat.

Definition startrow_monthly_uploads (summary_rows download_rows yearly_rows : nat) : nat :=
  (summary_rows + download_rows + yearly_rows + 6)%nat.

Definition startrow_uploads_by_user
    (summary_rows download_rows yearly_rows monthly_rows : nat) : nat :=
  (summary_rows + download_rows + yearly_rows + monthly_rows + 8)%nat.

(** [to_excel] writes the header on the line [startrow] and the [n] lines
    of the table below it: the last line it fills. *)
Definition last_row (startrow n : nat) : nat := (startrow + n)%nat.

(** ** Measures of tables and runs *)

(** The sum of the column "Count" of a summary table. *)
Definition total_count (table : list (string * nat)) : nat :=
  fold_right (fun line acc => (snd line + acc)%nat) 0%nat table.

Definition positive_downloads (d : option Z) : bool :=
  match d with Some x => 0 <? x | None => false end.

Definition no_downloads_value (d : option Z) : bool :=
  match d with Some x => x <? 0 | None => true end.

Fixpoint has_comma (s : string) : bool :=
  match s with
  | EmptyString => false
  | String c s' => Ascii.eqb c ","%char || has_comma s'
  end.

(** The request that the loop of [main] sends for a repository name. *)
Definition request_for (artifactory_url username password repository_name : string) : event :=
  EPost (artifactory_url ++ "/api/search/aql") username password
        (generate_aql_query repository_name).

(** The names of the columns after [df[c] = ...]. *)
Definition names_after_set (c : string) (names : list string) : list string :=
  if existsb (String.eqb c) names then names else names ++ [c].

Definition normalized_columns : list string :=
  ["repo"; "path"; "name"; "type"; "size"; "created"; "created_by"; "modified";
   "modified_by"; "updated"; "downloads"; "downloaded_by"; "last_downloaded"].

Definition no_items_response : json := JObj [ ("range", sample_range 0) ].

Definition down_network (n : nat) (url username password data : string) : http_outcome :=
  TransportError "Connection refused".

(** * Properties *)

(** ** Sanity checks of the model on concrete inputs *)

Example bytes_to_gb_eighth : bytes_to_gb (2 ^ 27) = (3 # 25)%Q.
Proof. reflexivity. Qed.

Example bytes_to_gb_folder : bytes_to_gb (-1) = 0%Q.
Proof. reflexivity. Qed.

Example civil_2024_01_15 : civil_from_days 19737 = (2024, 1, 15).
Proof. reflexivity. Qed.

Example civil_epoch : civil_from_days 0 = (1970, 1, 1).
Proof. reflexivity. Qed.

Example civil_leap_day : civil_from_days 11016 = (2000, 2, 29).
Proof. reflexivity. Qed.

Example stamp_example :
  strftime_stamp (mkDatetime 2024 1 15 10 30 5 0) = "2024Jan15T1030HZ".
Proof. reflexivity. Qed.

Example iso8601_example : iso8601_utc "2024-01-15T10:30:00.000Z" = Some 1705314600000000000.
Proof. reflexivity. Qed.

Example split_comma_example :
  split_comma "libs-release,libs-snapshot" = ["libs-release"; "libs-snapshot"].
Proof. reflexivity. Qed.

Example split_comma_empty : split_comma EmptyString = [EmptyString].
Proof. reflexivity. Qed.

(** ** Helper lemmas *)

Local Open Scope result_scope.

Ltac inv_rbind :=
  repeat match goal with
  | H : rbind ?m _ = Ok _ |- _ =>
      let E := fresh "E" in
      destruct m eqn:E; simpl in H; [ | discriminate H ]
  | H : match ?t with Some _ => _ | None => _ end = Ok _ |- _ =>
      let E := fresh "E" in destruct t eqn:E
  | H : Ok _ = Ok _ |- _ => injection H as H; subst
  end.

Lemma mapM_nth_error {A B : Type} (f : A -> result B) (l : list A) :
  forall bs i a,
    mapM f l = Ok bs -> nth_error l i = Some a ->
    exists b, f a = Ok b /\ nth_error bs i = Some b.
Proof.
  induction l as [| x l IH]; intros bs i a Hm Hn.
  - destruct i; discriminate Hn.
  - simpl in Hm.
    destruct (f x) as [b |] eqn:Efx; simpl in Hm; [ | discriminate Hm ].
    destruct (mapM f l) as [bs' |] eqn:Em; simpl in Hm; [ | discriminate Hm ].
    injection Hm as <-.
    destruct i as [| i]; simpl in Hn.
    + injection Hn as ->. exists b. split; [assumption | reflexivity].
    + simpl. eapply IH; eauto.
Qed.

Lemma mapM_raises {A B : Type} (f : A -> result B) (l : list A) (a : A) :
  In a l -> raises (f a) = true -> raises (mapM f l) = true.
Proof.
  induction l as [| x l IH]; intros Hin Hr.
  - destruct Hin.
  - simpl. destruct Hin as [-> | Hin].
    + destruct (f a); [discriminate Hr | reflexivity].
    + destruct (f x); [ | reflexivity ]. simpl.
      specialize (IH Hin Hr). destruct (mapM f l); [discriminate IH | reflexivity].
Qed.

Lemma py_get_obj (kv : list (string * json)) (key : string) (default : json) :
  py_get (JObj kv) key default =
  Ok (match assoc key kv with Some v => v | None => default end).
Proof. unfold py_get. destruct (assoc key kv); reflexivity. Qed.

Lemma stat_field_absent (kv : list (string * json)) (key : string) (default : json) :
  assoc "stats" kv = None -> stat_field (JObj kv) key default = Ok default.
Proof. intros H. unfold stat_field. rewrite py_get_obj, H. reflexivity. Qed.

Lemma stat_field_present (kv : list (string * json)) (key : string) (default v : json) :
  assoc "stats" kv = Some v ->
  stat_field (JObj kv) key default = (first <- py_index0 v ;; py_get first key default).
Proof. intros H. unfold stat_field. rewrite py_get_obj, H. reflexivity. Qed.

Lemma column_set_column_other (c c' : string) (s : Series) (cols : list (string * Series)) :
  String.eqb c c' = false -> column c (set_column c' s cols) = column c cols.
Proof.
  intros Hne. induction cols as [| [k v] cols IH]; simpl.
  - rewrite Hne. reflexivity.
  - destruct (String.eqb c' k) eqn:Ek; simpl.
    + apply String.eqb_eq in Ek. subst k. rewrite Hne. reflexivity.
    + destruct (String.eqb c k); [reflexivity | exact IH].
Qed.

Lemma column_set_column_same (c : string) (s : Series) (cols : list (string * Series)) :
  column c (set_column c s cols) = Some s.
Proof.
  induction cols as [| [k v] cols IH]; simpl.
  - rewrite String.eqb_refl. reflexivity.
  - destruct (String.eqb c k) eqn:Ek; simpl.
    + rewrite String.eqb_refl. reflexivity.
    + rewrite Ek. exact IH.
Qed.

Lemma remove_timezone_other_column
    (parse_column : list json -> option (option Z * list (option Z)))
    (df df' : DataFrame) (c : string) :
  remove_timezone parse_column df = Ok df' ->
  String.eqb c "created" = false -> String.eqb c "modified" = false ->
  column c (columns df') = column c (columns df).
Proof.
  intros H Hc Hm. unfold remove_timezone in H. inv_rbind; simpl;
    repeat rewrite column_set_column_other by assumption; reflexivity.
Qed.

Lemma process_item_obj (kv : list (string * json)) :
  process_item (JObj kv) =
  (let field key := match assoc key kv with Some v => v | None => JNull end in
   v_downloads <- stat_field (JObj kv) "downloads" (JNum 0) ;;
   v_downloaded_by <- stat_field (JObj kv) "downloaded_by" (JStr "N/A") ;;
   v_last_downloaded <- stat_field (JObj kv) "downloaded" (JStr "N/A") ;;
   Ok (mkRow (field "repo") (field "path") (field "name") (field "type")
             (field "size") (field "created") (field "created_by")
             (field "modified") (field "modified_by") (field "updated")
             v_downloads v_downloaded_by v_last_downloaded)).
Proof. unfold process_item. rewrite !py_get_obj. reflexivity. Qed.

Lemma process_results_table
    (parse_column : list json -> option (option Z * list (option Z)))
    (res : json) (w w' : World) (df : DataFrame) :
  process_results parse_column res w = (w', Ok df) ->
  exists rows,
    processed_results res = Ok rows /\
    forall c, String.eqb c "created" = false ->
      column c (columns df) = column c (columns (DataFrame_of_rows rows)).
Proof.
  unfold process_results, bind, lift. intros H.
  destruct (processed_results res) as [rows |]; [ | discriminate H ].
  exists rows. split; [reflexivity | ].
  destruct rows as [| r rows].
  - simpl in H. injection H as _ <-. reflexivity.
  - cbn [DataFrame_of_rows has_column columns column String.eqb Ascii.eqb Bool.eqb] in H.
    cbn [getitem columns column String.eqb Ascii.eqb Bool.eqb] in H.
    destruct (to_datetime parse_column _) as [c' |]; [ | discriminate H ].
    unfold ret in H. injection H as _ <-.
    intros c Hc. unfold setitem. cbn [columns].
    apply column_set_column_other. exact Hc.
Qed.

(** ** C3: items without usage statistics *)

(** C3.  An item that has no "stats" entry is normalized to a row with
    downloads = 0, downloaded_by = "N/A" and last_downloaded = "N/A": the
    row built for the item has these fields, and when the item is the
    [i]-th of a response that [process_results] and [remove_timezone]
    turn into a table, the three cells of line [i] hold these values. *)
Theorem C3_missing_stats_defaults
    (parse_column : list json -> option (option Z * list (option Z)))
    (kv : list (string * json)) (res : json) (items : list json) (i : nat)
    (w w' : World) (df df' : DataFrame) :
  assoc "stats" kv = None ->
  py_get res "results" (JList []) = Ok (JList items) ->
  nth_error items i = Some (JObj kv) ->
  process_results parse_column res w = (w', Ok df) ->
  remove_timezone parse_column df = Ok df' ->
  (exists r, process_item (JObj kv) = Ok r /\
             downloads r = JNum 0 /\
             downloaded_by r = JStr "N/A" /\
             last_downloaded r = JStr "N/A") /\
  cell df' "downloads" i = Some (JNum 0) /\
  cell df' "downloaded_by" i = Some (JStr "N/A") /\
  cell df' "last_downloaded" i = Some (JStr "N/A").
Proof.
  intros Hstats Hres Hi Hp Hr.
  assert (Hitem : process_item (JObj kv) =
                  Ok (let field key := match assoc key kv with Some v => v | None => JNull end in
                      mkRow (field "repo") (field "path") (field "name") (field "type")
                            (field "size") (field "created") (field "created_by")
                            (field "modified") (field "modified_by") (field "updated")
                            (JNum 0) (JStr "N/A") (JStr "N/A"))).
  { rewrite process_item_obj. rewrite !stat_field_absent by exact Hstats. reflexivity. }
  split.
  { eexists. split; [exact Hitem | ]. repeat split. }
  destruct (process_results_table _ _ _ _ _ Hp) as [rows [Hrows Hcols]].
  unfold processed_results in Hrows. rewrite Hres in Hrows. simpl in Hrows.
  destruct (mapM_nth_error _ _ _ _ _ Hrows Hi) as [r [Hr' Hnth]].
  rewrite Hitem in Hr'. injection Hr' as <-.
  assert (Hne : exists r0 rows0, rows = r0 :: rows0).
  { destruct rows as [| r0 rows0]; [destruct i; discriminate Hnth | eauto]. }
  destruct Hne as [r0 [rows0 ->]].
  unfold cell.
  rewrite !(remove_timezone_other_column _ _ _ _ Hr) by reflexivity.
  rewrite !Hcols by reflexivity.
  cbn [DataFrame_of_rows columns column String.eqb Ascii.eqb Bool.eqb].
  repeat split.
  - apply (map_nth_error downloads) in Hnth. exact Hnth.
  - apply (map_nth_error downloaded_by) in Hnth. exact Hnth.
  - apply (map_nth_error last_downloaded) in Hnth. exact Hnth.
Qed.

Lemma C3_missing_stats_defaults_witness :
  (exists r, process_item sample_item_without_stats = Ok r /\
             downloads r = JNum 0 /\
             downloaded_by r = JStr "N/A" /\
             last_downloaded r = JStr "N/A") /\
  cell sample_naive_table "downloads" 1 = Some (JNum 0) /\
  cell sample_naive_table "downloaded_by" 1 = Some (JStr "N/A") /\
  cell sample_naive_table "last_downloaded" 1 = Some (JStr "N/A").
Proof.
  refine (C3_missing_stats_defaults iso8601_utc_column _ sample_response
            [sample_item_with_stats; sample_item_without_stats] 1
            initial_world sample_warm_world sample_table sample_naive_table
            _ _ _ _ _);
    reflexivity.
Defined.

(** ** C9: an empty "stats" list *)

(** C9, as amended.  An item whose "stats" entry is present and is the
    empty list makes the normalization raise [IndexError] (the index 0 is
    out of range) instead of yielding the defaults: the row of the item
    raises, every statistics field of the item raises, and so does the
    normalization of a response that contains the item.  The default of a
    statistics field is substituted exactly when the key "stats" is
    absent or the first entry of the "stats" list is a dict that lacks
    the key of the field. *)
Theorem C9_empty_stats_list_raises
    (parse_column : list json -> option (option Z * list (option Z)))
    (kv : list (string * json)) (res : json) (items : list json) (w : World) :
  assoc "stats" kv = Some (JList []) ->
  py_get res "results" (JList []) = Ok (JList items) ->
  In (JObj kv) items ->
  process_item (JObj kv) = Raise IndexError /\
  (forall key default, stat_field (JObj kv) key default = Raise IndexError) /\
  raises (processed_results res) = true /\
  (exists e, process_results parse_column res w = (w, Raise e)) /\
  (forall kv' key,
      (forall default, stat_field (JObj kv') key default = Ok default) <->
      (assoc "stats" kv' = None \/
       exists entry rest,
         assoc "stats" kv' = Some (JList (JObj entry :: rest)) /\
         assoc key entry = None)).
Proof.
  intros Hstats Hres Hin.
  assert (Hfield : forall key default, stat_field (JObj kv) key default = Raise IndexError).
  { intros key default. rewrite (stat_field_present _ _ _ _ Hstats). reflexivity. }
  assert (Hitem : process_item (JObj kv) = Raise IndexError).
  { rewrite process_item_obj. cbv zeta. rewrite Hfield. reflexivity. }
  assert (Hraises : raises (processed_results res) = true).
  { unfold processed_results. rewrite Hres. simpl.
    apply (mapM_raises _ _ _ Hin). rewrite Hitem. reflexivity. }
  repeat split; try assumption.
  - unfold process_results, bind, lift.
    destruct (processed_results res) as [rows | e]; [discriminate Hraises | ].
    exists e. reflexivity.
  - intros Hd.
    destruct (assoc "stats" kv') as [v |] eqn:Ev; [right | left; reflexivity].
    pose proof (Hd (JNum 0)) as H0. pose proof (Hd (JNum 1)) as H1.
    rewrite (stat_field_present _ _ _ _ Ev) in H0.
    rewrite (stat_field_present _ _ _ _ Ev) in H1.
    destruct v as [| b | n | s | [| first rest] | kv'']; try discriminate H0.
    + destruct s; discriminate H0.
    + destruct first as [| b | n | s | l | entry]; try discriminate H0.
      simpl in H0, H1. exists entry, rest. split; [reflexivity | ].
      destruct (assoc key entry) as [x |]; [ | reflexivity ].
      injection H0 as ->. discriminate H1.
  - intros [Hs | [entry [rest [Hs Hk]]]] default.
    + apply stat_field_absent. exact Hs.
    + rewrite (stat_field_present _ _ _ _ Hs). simpl. rewrite Hk. reflexivity.
Qed.

Lemma C9_empty_stats_list_raises_witness :
  process_item sample_item_empty_stats = Raise IndexError /\
  raises (processed_results empty_stats_response) = true.
Proof.
  pose proof (C9_empty_stats_list_raises iso8601_utc_column
                [ ("repo", JStr "libs-release"); ("name", JStr "app-1.2.jar");
                  ("size", JNum 1); ("stats", JList []) ]
                empty_stats_response
                [sample_item_with_stats; sample_item_empty_stats] initial_world
                eq_refl eq_refl (or_intror (or_introl eq_refl))) as H.
  split; [exact (proj1 H) | exact (proj1 (proj2 (proj2 H)))].
Defined.

(** C9, as stated, fails in its last clause: the defaults are also
    substituted with the key "stats" present, for an item whose "stats"
    list starts with a dict that lacks the keys. *)
Lemma C9_defaults_with_stats_present :
  ~ (forall kv : list (string * json),
        (forall key default, stat_field (JObj kv) key default = Ok default) ->
        assoc "stats" kv = None).
Proof.
  intros H.
  specialize (H [("name", JStr "app-1.3.jar"); ("stats", JList [JObj []])]
                (fun key default => eq_refl)).
  discriminate H.
Qed.

(** The row of such an item holds the three defaults. *)
Example row_of_stats_entry_without_keys :
  option_map (fun r => (downloads r, downloaded_by r, last_downloaded r))
    (match process_item (JObj [("name", JStr "app-1.3.jar"); ("stats", JList [JObj []])])
     with Ok r => Some r | Raise _ => None end)
  = Some (JNum 0, JStr "N/A", JStr "N/A").
Proof. reflexivity. Qed.

(** The defaults of the inner lookups also apply to an item whose "stats"
    list holds a dict without the three keys. *)
Lemma stats_entry_without_keys (kv : list (string * json)) (rest : list json) :
  assoc "stats" kv = Some (JList (JObj [] :: rest)) ->
  stat_field (JObj kv) "downloads" (JNum 0) = Ok (JNum 0).
Proof. intros H. rewrite (stat_field_present _ _ _ _ H). reflexivity. Qed.

(** ** C1: a response without items *)

Lemma remove_timezone_without_columns
    (parse_column : list json -> option (option Z * list (option Z))) (n : nat) :
  remove_timezone parse_column (mkDataFrame n []) = Raise (KeyError "created").
Proof. reflexivity. Qed.

(** C1.  On the response that Artifactory gives for a repository without
    items, the result list being empty, the run does not produce a
    workbook: the response is truthy, [process_results] prints its warning
    and returns the table without columns, [remove_timezone] then raises
    [KeyError] on the column "created", and [main] ends with that exception
    without having saved any workbook. *)
Theorem C1_empty_result_list_raises
    (parse_column : list json -> option (option Z * list (option Z)))
    (clock : nat -> datetime) (render_charts : DataFrame -> result unit) :
  truthy empty_response = true /\
  processed_results empty_response = Ok [] /\
  process_results parse_column empty_response initial_world =
    (mkWorld [EPrint "Warning: 'created' column is missing."] 0 0,
     Ok (mkDataFrame 0 [])) /\
  remove_timezone parse_column (mkDataFrame 0 []) = Raise (KeyError "created") /\
  exists w,
    main parse_column (constant_network (Response 200 "OK" (inl empty_response)))
         clock render_charts sample_environment no_flags initial_world
    = (w, Raise (KeyError "created")) /\
    existsb is_save (trace w) = false.
Proof.
  repeat split.
  eexists. split; [ vm_compute; reflexivity | reflexivity ].
Qed.

(** ** C2: incomplete configuration *)

(** C2.  When, after merging the flags and the environment, the base URL,
    the user name or the password is missing or empty, or the list of
    repository names is empty, [get_configuration] raises its
    [ValueError] and [main] ends with it in the world it started from: no
    request is sent, and nothing is printed or saved. *)
Theorem C2_incomplete_configuration_aborts
    (parse_column : list json -> option (option Z * list (option Z)))
    (network : nat -> string -> string -> string -> string -> http_outcome)
    (clock : nat -> datetime) (render_charts : DataFrame -> result unit)
    (env : Environment) (cli : CommandLine) (w : World) :
  missing (args_artifactory_url env cli) = true \/
  missing (args_username env cli) = true \/
  missing (args_password env cli) = true \/
  args_repository_names env cli = [] ->
  get_configuration env cli = Raise configuration_error /\
  main parse_column network clock render_charts env cli w = (w, Raise configuration_error).
Proof.
  intros H.
  assert (Hcfg : get_configuration env cli = Raise configuration_error).
  { unfold get_configuration.
    destruct H as [H | [H | [H | H]]]; rewrite H; simpl;
      rewrite ?orb_true_r; reflexivity. }
  split; [exact Hcfg | ].
  unfold main, bind, lift. rewrite Hcfg. reflexivity.
Qed.

Lemma C2_incomplete_configuration_aborts_witness :
  get_configuration (mkEnvironment None (Some "reporter") (Some "secret") (Some "libs-release"))
                    no_flags = Raise configuration_error /\
  main iso8601_utc_column flaky_network sample_clock charts_ok
       (mkEnvironment None (Some "reporter") (Some "secret") (Some "libs-release"))
       no_flags initial_world = (initial_world, Raise configuration_error).
Proof.
  apply (C2_incomplete_configuration_aborts iso8601_utc_column flaky_network
           sample_clock charts_ok
           (mkEnvironment None (Some "reporter") (Some "secret") (Some "libs-release"))
           no_flags initial_world).
  left. reflexivity.
Defined.

(** ** C4: download ranges *)

Lemma download_range_cases (x : Z) :
  (0 < x <= 10 /\ download_range (Some x) = Some "1-10") \/
  (10 < x <= 20 /\ download_range (Some x) = Some "11-20") \/
  (20 < x <= 30 /\ download_range (Some x) = Some "21-30") \/
  (30 < x <= 40 /\ download_range (Some x) = Some "31-40") \/
  (40 < x <= 50 /\ download_range (Some x) = Some "41-50") \/
  (50 < x /\ download_range (Some x) = Some "50+") \/
  (x <= 0 /\ download_range (Some x) = None).
Proof.
  unfold download_range, download_bins, download_labels.
  cbn [cut lt_bound le_bound].
  repeat match goal with
  | |- context [?a <? ?b] => destruct (Z.ltb_spec a b)
  | |- context [?a <=? ?b] => destruct (Z.leb_spec a b)
  end; cbn [andb]; try lia;
  repeat (first [ left; split; [lia | reflexivity] | right ]);
  split; [lia | reflexivity].
Qed.

Lemma length_filter_map {A B : Type} (p : B -> bool) (f : A -> B) (l : list A) :
  List.length (filter p (map f l)) = List.length (filter (fun a => p (f a)) l).
Proof.
  induction l as [| a l IH]; simpl; [reflexivity | ].
  destruct (p (f a)); simpl; rewrite IH; reflexivity.
Qed.

(** C4.  The download ranges are the intervals (0, 10], (10, 20], ...,
    (40, 50], (50, inf), open on the left and closed on the right: 10
    downloads fall in "1-10", 11 in "11-20", and 0 downloads in no
    range.  Each line of the histogram counts the rows of its range, so a
    row with 0 downloads is counted in none of the six lines. *)
Theorem C4_download_range_binning :
  download_range (Some 10) = Some "1-10" /\
  download_range (Some 11) = Some "11-20" /\
  download_range (Some 0) = None /\
  (forall x : Z,
      (0 < x <= 10 /\ download_range (Some x) = Some "1-10") \/
      (10 < x <= 20 /\ download_range (Some x) = Some "11-20") \/
      (20 < x <= 30 /\ download_range (Some x) = Some "21-30") \/
      (30 < x <= 40 /\ download_range (Some x) = Some "31-40") \/
      (40 < x <= 50 /\ download_range (Some x) = Some "41-50") \/
      (50 < x /\ download_range (Some x) = Some "50+") \/
      (x <= 0 /\ download_range (Some x) = None)) /\
  (forall ds : list (option Z),
      download_summary ds =
      map (fun lab =>
             (lab, List.length (filter (fun d => label_eqb (download_range d) lab) ds)))
          download_labels) /\
  (forall ds1 ds2 : list (option Z),
      download_summary (ds1 ++ Some 0 :: ds2) = download_summary (ds1 ++ ds2)) /\
  download_summary [Some 10; Some 11; Some 0] =
    [("1-10", 1%nat); ("11-20", 1%nat); ("21-30", 0%nat);
     ("31-40", 0%nat); ("41-50", 0%nat); ("50+", 0%nat)].
Proof.
  split; [reflexivity | ]. split; [reflexivity | ]. split; [reflexivity | ].
  split; [exact download_range_cases | ].
  split.
  { intros ds. unfold download_summary. apply map_ext. intros lab.
    rewrite length_filter_map. reflexivity. }
  split; [ | reflexivity ].
  intros ds1 ds2. unfold download_summary. apply map_ext. intros lab.
  rewrite !map_app, !filter_app. reflexivity.
Qed.

(** ** C6: size conversion *)

Lemma round_half_even_hundredths_close (num den : Z) :
  0 < den ->
  2 * Z.abs (round_half_even_hundredths num den * den - num * 100) <= den.
Proof.
  intros Hden. unfold round_half_even_hundredths.
  pose proof (Z.div_mod (num * 100) den ltac:(lia)) as Hdm.
  pose proof (Z.mod_pos_bound (num * 100) den Hden) as Hr.
  set (f := num * 100 / den) in *. set (r := (num * 100) mod den) in *.
  destruct (Z.ltb_spec (2 * r) den); [ nia | ].
  destruct (Z.ltb_spec den (2 * r)); [ nia | ].
  destruct (Z.even f); nia.
Qed.

(** C6.  [bytes_to_gb] divides the size in bytes by 2^30 and rounds to two
    decimal places: the result is a whole number of hundredths that lies
    within half a hundredth of size / 2^30, and 1073741824 bytes give
    1.0. *)
Theorem C6_bytes_to_gb_rounding :
  bytes_to_gb 1073741824 = 1%Q /\
  (forall b : Z,
      (bytes_to_gb b == round_half_even_hundredths b (2 ^ 30) # 100)%Q /\
      (Qabs (bytes_to_gb b - inject_Z b / inject_Z (2 ^ 30)) <= 1 # 200)%Q).
Proof.
  split; [reflexivity | ].
  intros b.
  assert (Heq : (bytes_to_gb b == round_half_even_hundredths b (2 ^ 30) # 100)%Q).
  { unfold bytes_to_gb. apply Qred_correct. }
  split; [exact Heq | ].
  rewrite Heq.
  pose proof (round_half_even_hundredths_close b (2 ^ 30) ltac:(lia)) as Hc.
  set (k := round_half_even_hundredths b (2 ^ 30)) in *.
  apply Qabs_Qle_condition.
  change (2 ^ 30) with 1073741824 in *.
  unfold Qle, Qminus, Qplus, Qopp, Qdiv, Qmult, Qinv, inject_Z; simpl.
  lia.
Qed.

(** ** C7: stripping the time zone twice *)

Lemma getitem_setitem_same (df : DataFrame) (c : string) (s : Series) :
  getitem (setitem df c s) c = Ok s.
Proof. unfold getitem, setitem. cbn [columns]. rewrite column_set_column_same. reflexivity. Qed.

Lemma getitem_setitem_other (df : DataFrame) (c c' : string) (s : Series) :
  String.eqb c c' = false -> getitem (setitem df c' s) c = getitem df c.
Proof.
  intros H. unfold getitem, setitem. cbn [columns].
  rewrite column_set_column_other by exact H. reflexivity.
Qed.

Lemma set_column_unchanged (c : string) (s : Series) (cols : list (string * Series)) :
  column c cols = Some s -> set_column c s cols = cols.
Proof.
  induction cols as [| [k v] cols IH]; simpl; [discriminate | ].
  destruct (String.eqb c k) eqn:Ek.
  - intros H. injection H as ->. apply String.eqb_eq in Ek. subst k. reflexivity.
  - intros H. rewrite (IH H). reflexivity.
Qed.

Lemma setitem_unchanged (df : DataFrame) (c : string) (s : Series) :
  getitem df c = Ok s -> setitem df c s = df.
Proof.
  unfold getitem, setitem. destruct df as [n cols]. cbn [columns nrows].
  destruct (column c cols) as [s' |] eqn:E; [ | discriminate ].
  intros H. injection H as ->. rewrite (set_column_unchanged _ _ _ E). reflexivity.
Qed.

Lemma dt_tz_inv (s : Series) (tz : option Z) :
  dt_tz s = Ok tz -> exists stamps, s = SDatetime tz stamps.
Proof. destruct s; simpl; intros H; try discriminate H. injection H as ->. eauto. Qed.

Lemma tz_localize_none_naive (s s' : Series) :
  tz_localize_none s = Ok s' -> exists stamps, s' = SDatetime None stamps.
Proof.
  destruct s as [| [off |] stamps | |]; simpl; intros H; try discriminate H;
    injection H as <-; eauto.
Qed.

(** A table whose two timestamp columns are naive datetime columns is a
    fixed point of [remove_timezone]. *)
Lemma remove_timezone_naive
    (parse_column : list json -> option (option Z * list (option Z)))
    (df : DataFrame) (s1 s2 : list (option Z)) :
  getitem df "created" = Ok (SDatetime None s1) ->
  getitem df "modified" = Ok (SDatetime None s2) ->
  remove_timezone parse_column df = Ok df.
Proof.
  intros Hc Hm. unfold remove_timezone.
  rewrite Hc. cbn [rbind to_datetime]. rewrite (setitem_unchanged _ _ _ Hc).
  rewrite Hm. cbn [rbind to_datetime]. rewrite (setitem_unchanged _ _ _ Hm).
  rewrite Hc. cbn [rbind dt_tz]. rewrite Hm. reflexivity.
Qed.

Lemma remove_timezone_columns
    (parse_column : list json -> option (option Z * list (option Z)))
    (df df1 : DataFrame) :
  remove_timezone parse_column df = Ok df1 ->
  exists s1 s2,
    getitem df1 "created" = Ok (SDatetime None s1) /\
    getitem df1 "modified" = Ok (SDatetime None s2).
Proof.
  unfold remove_timezone. intros H. inv_rbind.
  all: repeat match goal with
       | H : getitem (setitem _ ?c _) ?c = Ok _ |- _ =>
           rewrite getitem_setitem_same in H; injection H as H; subst
       | H : getitem (setitem _ ?c' _) ?c = Ok _ |- _ =>
           rewrite getitem_setitem_other in H by reflexivity
       end.
  all: repeat match goal with
       | H : dt_tz _ = Ok _ |- _ => apply dt_tz_inv in H; destruct H as [? ->]
       | H : tz_localize_none _ = Ok _ |- _ =>
           apply tz_localize_none_naive in H; destruct H as [? ->]
       end.
  all: do 2 eexists; split;
    repeat first [ rewrite getitem_setitem_same
                 | rewrite getitem_setitem_other by reflexivity ];
    reflexivity.
Qed.

Lemma remove_timezone_stable
    (parse_column : list json -> option (option Z * list (option Z)))
    (df df1 : DataFrame) :
  remove_timezone parse_column df = Ok df1 ->
  remove_timezone parse_column df1 = Ok df1.
Proof.
  intros H.
  destruct (remove_timezone_columns _ _ _ H) as [s1 [s2 [Hc Hm]]].
  exact (remove_timezone_naive _ _ _ _ Hc Hm).
Qed.

(** C7.  Stripping the time zone is idempotent: the table that
    [remove_timezone] returns has naive "created" and "modified" columns,
    and [remove_timezone] returns that table unchanged. *)
Theorem C7_remove_timezone_idempotent
    (parse_column : list json -> option (option Z * list (option Z)))
    (df df1 : DataFrame) :
  remove_timezone parse_column df = Ok df1 ->
  remove_timezone parse_column df1 = Ok df1 /\
  naive df1 "created" = true /\ naive df1 "modified" = true.
Proof.
  intros H.
  destruct (remove_timezone_columns _ _ _ H) as [s1 [s2 [Hc Hm]]].
  split; [exact (remove_timezone_stable _ _ _ H) | ].
  unfold naive. unfold getitem in Hc, Hm.
  destruct (column "created" (columns df1)) as [c |]; [ | discriminate Hc ].
  destruct (column "modified" (columns df1)) as [m |]; [ | discriminate Hm ].
  injection Hc as ->. injection Hm as ->. split; reflexivity.
Qed.

Lemma C7_remove_timezone_idempotent_witness :
  remove_timezone iso8601_utc_column aware_table_stripped = Ok aware_table_stripped /\
  naive aware_table_stripped "created" = true /\
  naive aware_table_stripped "modified" = true.
Proof.
  apply (C7_remove_timezone_idempotent iso8601_utc_column aware_table).
  reflexivity.
Defined.

(** The same in the error monad, for every table: a second application
    after the first is the first, also when the first raises. *)
Lemma remove_timezone_twice
    (parse_column : list json -> option (option Z * list (option Z)))
    (df : DataFrame) :
  (df1 <- remove_timezone parse_column df ;; remove_timezone parse_column df1)
  = remove_timezone parse_column df.
Proof.
  destruct (remove_timezone parse_column df) as [df1 | e] eqn:E; simpl; [ | reflexivity ].
  exact (remove_timezone_stable _ _ _ E).
Qed.

Example aware_table_is_shifted :
  getitem aware_table_stripped "created"
  = Ok (SDatetime None [Some (1705314600000000000 + 7200000000000); None]).
Proof. reflexivity. Qed.

(** ** C8: the name of the workbook *)

Lemma string_app_assoc (a b c : string) : ((a ++ b) ++ c = a ++ (b ++ c))%string.
Proof. induction a as [| x a IH]; simpl; [reflexivity | rewrite IH; reflexivity]. Qed.

Lemma string_app_inv_head (a b c : string) : (a ++ b = a ++ c)%string -> b = c.
Proof.
  induction a as [| x a IH]; simpl; intros H; [exact H | ].
  injection H as H. exact (IH H).
Qed.

Lemma digit_inj (a b : Z) : digit a = digit b -> a mod 10 = b mod 10.
Proof.
  unfold digit. intros H.
  apply (f_equal nat_of_ascii) in H.
  pose proof (Z.mod_pos_bound a 10 ltac:(lia)).
  pose proof (Z.mod_pos_bound b 10 ltac:(lia)).
  rewrite !nat_ascii_embedding in H by lia.
  lia.
Qed.

Lemma two_digits_inj (a b : Z) :
  0 <= a < 100 -> 0 <= b < 100 ->
  (a / 10) mod 10 = (b / 10) mod 10 -> a mod 10 = b mod 10 -> a = b.
Proof. intros. Z.to_euclidean_division_equations. lia. Qed.

Lemma four_digits_inj (a b : Z) :
  0 <= a < 10000 -> 0 <= b < 10000 ->
  (a / 1000) mod 10 = (b / 1000) mod 10 ->
  (a / 100) mod 10 = (b / 100) mod 10 ->
  (a / 10) mod 10 = (b / 10) mod 10 -> a mod 10 = b mod 10 -> a = b.
Proof. intros. Z.to_euclidean_division_equations. lia. Qed.

Lemma month_abbr_app_inj (m1 m2 : Z) (r1 r2 : string) :
  1 <= m1 <= 12 -> 1 <= m2 <= 12 ->
  (month_abbr m1 ++ r1 = month_abbr m2 ++ r2)%string -> m1 = m2 /\ r1 = r2.
Proof.
  intros H1 H2.
  assert (C1 : m1 = 1 \/ m1 = 2 \/ m1 = 3 \/ m1 = 4 \/ m1 = 5 \/ m1 = 6 \/
               m1 = 7 \/ m1 = 8 \/ m1 = 9 \/ m1 = 10 \/ m1 = 11 \/ m1 = 12) by lia.
  assert (C2 : m2 = 1 \/ m2 = 2 \/ m2 = 3 \/ m2 = 4 \/ m2 = 5 \/ m2 = 6 \/
               m2 = 7 \/ m2 = 8 \/ m2 = 9 \/ m2 = 10 \/ m2 = 11 \/ m2 = 12) by lia.
  repeat (destruct C1 as [C1 | C1]); subst m1;
    repeat (destruct C2 as [C2 | C2]); subst m2;
    simpl; intros H; first [ discriminate H | injection H as H; split; [reflexivity | exact H] ].
Qed.

Lemma filename_same_minute (repository_name : string) (t1 t2 : datetime) :
  valid_datetime t1 -> valid_datetime t2 ->
  (filename repository_name t1 = filename repository_name t2 <->
   year t1 = year t2 /\ month t1 = month t2 /\ day t1 = day t2 /\
   hour t1 = hour t2 /\ minute t1 = minute t2).
Proof.
  intros V1 V2. split.
  - unfold filename. intros H.
    apply string_app_inv_head in H. simpl in H.
    injection H as Hy3 Hy2 Hy1 Hy0 H.
    rewrite !string_app_assoc in H.
    destruct V1 as (Vy1 & Vm1 & Vd1 & Vh1 & Vn1 & _).
    destruct V2 as (Vy2 & Vm2 & Vd2 & Vh2 & Vn2 & _).
    destruct (month_abbr_app_inj _ _ _ _ Vm1 Vm2 H) as [Hm H'].
    simpl in H'. injection H' as Hd1 Hd0 Hh1 Hh0 Hn1 Hn0.
    apply digit_inj in Hy3, Hy2, Hy1, Hy0, Hd1, Hd0, Hh1, Hh0, Hn1, Hn0.
    repeat split.
    + apply four_digits_inj; try assumption; lia.
    + exact Hm.
    + apply two_digits_inj; try assumption; lia.
    + apply two_digits_inj; try assumption; lia.
    + apply two_digits_inj; try assumption; lia.
  - intros (Hy & Hm & Hd & Hh & Hn). unfold filename, strftime_stamp.
    rewrite Hy, Hm, Hd, Hh, Hn. reflexivity.
Qed.

Lemma write_to_excel_saves_under_filename
    (clock : nat -> datetime) (render_charts : DataFrame -> result unit)
    (df : DataFrame) (repository_name : string) (w w' : World) (r : result unit) :
  write_to_excel clock render_charts df repository_name w = (w', r) ->
  forall wb, In (ESave wb) (trace w') ->
    In (ESave wb) (trace w) \/
    wb_filename wb = filename repository_name (clock (clock_reads w)).
Proof.
  unfold write_to_excel, bind, lift, datetime_now, emit, print, ret.
  intros H wb Hin.
  repeat match type of H with
  | context [match ?m with Ok _ => _ | Raise _ => _ end] =>
      destruct m; cbn [trace posts clock_reads] in H
  end;
  injection H as <- _; cbn [trace] in Hin;
  repeat (apply in_app_or in Hin; destruct Hin as [Hin | Hin]);
  try (left; exact Hin);
  repeat match goal with
  | H : In _ [_] |- _ => destruct H as [H | []]
  end;
  try discriminate;
  match goal with H : ESave _ = ESave _ |- _ => injection H as <- end;
  right; reflexivity.
Qed.

(** C8.  The workbook is named
    [{repository_name}-{YYYYMonDDTHHMM}HZ-stats.xlsx] after the reading of
    the clock taken when it is written, to the minute: two writes for
    the same repository name get the same file name exactly when their
    clock readings agree on year, month, day, hour and minute. *)
Theorem C8_filename_minute_resolution
    (clock : nat -> datetime) (render_charts : DataFrame -> result unit)
    (repository_name : string) (t1 t2 : datetime) :
  valid_datetime t1 -> valid_datetime t2 ->
  (filename repository_name t1 =
   repository_name ++ "-" ++ pad4 (year t1) ++ month_abbr (month t1) ++ pad2 (day t1)
     ++ "T" ++ pad2 (hour t1) ++ pad2 (minute t1) ++ "HZ" ++ "-stats.xlsx")%string /\
  (filename repository_name t1 = filename repository_name t2 <->
   year t1 = year t2 /\ month t1 = month t2 /\ day t1 = day t2 /\
   hour t1 = hour t2 /\ minute t1 = minute t2) /\
  (forall df w w' r wb,
      write_to_excel clock render_charts df repository_name w = (w', r) ->
      In (ESave wb) (trace w') ->
      In (ESave wb) (trace w) \/
      wb_filename wb = filename repository_name (clock (clock_reads w))).
Proof.
  intros V1 V2. split; [ | split ].
  - unfold filename, strftime_stamp. rewrite !string_app_assoc. reflexivity.
  - exact (filename_same_minute repository_name t1 t2 V1 V2).
  - intros df w w' r wb H Hin.
    exact (write_to_excel_saves_under_filename _ _ _ _ _ _ _ H wb Hin).
Qed.

Lemma valid_datetime_morning : valid_datetime (mkDatetime 2024 1 15 10 30 5 0).
Proof. unfold valid_datetime; simpl; lia. Qed.

Lemma valid_datetime_same_minute : valid_datetime (mkDatetime 2024 1 15 10 30 40 0).
Proof. unfold valid_datetime; simpl; lia. Qed.

Lemma valid_datetime_next_minute : valid_datetime (mkDatetime 2024 1 15 10 31 5 0).
Proof. unfold valid_datetime; simpl; lia. Qed.

Lemma C8_filename_minute_resolution_witness :
  filename "libs-release" (mkDatetime 2024 1 15 10 30 5 0)
    = "libs-release-2024Jan15T1030HZ-stats.xlsx" /\
  filename "libs-release" (mkDatetime 2024 1 15 10 30 5 0)
    <> filename "libs-release" (mkDatetime 2024 1 15 10 31 5 0).
Proof.
  pose proof (C8_filename_minute_resolution sample_clock charts_ok "libs-release"
                (mkDatetime 2024 1 15 10 30 5 0) (mkDatetime 2024 1 15 10 31 5 0)
                valid_datetime_morning valid_datetime_next_minute) as [Hpat [Hiff _]].
  split; [exact Hpat | ].
  intros Heq. apply Hiff in Heq. simpl in Heq.
  destruct Heq as (_ & _ & _ & _ & Hmin). discriminate Hmin.
Defined.

(** C8, as stated, fails: two writes of the report of one repository
    within the same minute get the same file name, so distinct clock
    readings do not give distinct names. *)
Lemma C8_same_minute_collision :
  ~ (forall (repository_name : string) (t1 t2 : datetime),
        valid_datetime t1 -> valid_datetime t2 -> t1 <> t2 ->
        filename repository_name t1 <> filename repository_name t2).
Proof.
  intros H.
  apply (H "libs-release" (mkDatetime 2024 1 15 10 30 5 0)
           (mkDatetime 2024 1 15 10 30 40 0)
           valid_datetime_morning valid_datetime_same_minute).
  - discriminate.
  - reflexivity.
Qed.

(** ** C5 and C10: the loop of [main] *)

Local Open Scope io_scope.

Lemma try_request_error (outcome : http_outcome) (url : string) :
  transport_or_http_error outcome -> exists text, try_request outcome url = inr text.
Proof.
  destruct outcome as [e | status reason body]; simpl; intros H.
  - eauto.
  - destruct (Z.leb_spec 400 status); [ | lia ].
    destruct (Z.ltb_spec status 600); [ | lia ].
    simpl. eauto.
Qed.

Lemma try_request_success (status : Z) (reason url : string) (body : json) :
  200 <= status < 300 -> try_request (Response status reason (inl body)) url = inl body.
Proof.
  intros H. simpl.
  destruct (Z.leb_spec 400 status); [lia | reflexivity].
Qed.

(** C5.  When the request of a repository meets an exception of the
    transport layer or an error status, [execute_aql_query] prints the
    diagnostic and returns [None] without raising; the loop body prints
    that the retrieval failed, processes no result and saves no workbook;
    and the loop goes on with the remaining repository names as it would
    without the failed one. *)
Theorem C5_failed_query_is_skipped
    (parse_column : list json -> option (option Z * list (option Z)))
    (network : nat -> string -> string -> string -> string -> http_outcome)
    (clock : nat -> datetime) (render_charts : DataFrame -> result unit)
    (artifactory_url username password repository_name : string)
    (rest : list string) (w : World) :
  let url := (artifactory_url ++ "/api/search/aql")%string in
  let aql_query := generate_aql_query repository_name in
  let body := process_repository parse_column network clock render_charts
                artifactory_url username password in
  transport_or_http_error (network (posts w) url username password aql_query) ->
  exists text,
    execute_aql_query network aql_query artifactory_url username password w =
      (mkWorld (trace w ++ [EPost url username password aql_query;
                            EPrint ("Error executing AQL query: " ++ text)])
               (S (posts w)) (clock_reads w),
       Ok JNull) /\
    let w' :=
      mkWorld (trace w ++
                 [EPrint ("Processing repository: " ++ repository_name);
                  EPrint ("Generated AQL query: " ++ aql_query);
                  EPost url username password aql_query;
                  EPrint ("Error executing AQL query: " ++ text);
                  EPrint ("Failed to retrieve data for repository "
                            ++ repository_name ++ ".")])
              (S (posts w)) (clock_reads w) in
    body repository_name w = (w', Ok tt) /\
    for_each (repository_name :: rest) body w = for_each rest body w'.
Proof.
  intros url aql_query body H.
  destruct (try_request_error _ url H) as [text Ht].
  exists text.
  assert (Hbody : body repository_name w =
    (mkWorld (trace w ++
                 [EPrint ("Processing repository: " ++ repository_name);
                  EPrint ("Generated AQL query: " ++ aql_query);
                  EPost url username password aql_query;
                  EPrint ("Error executing AQL query: " ++ text);
                  EPrint ("Failed to retrieve data for repository "
                            ++ repository_name ++ ".")])
              (S (posts w)) (clock_reads w), Ok tt)).
  { unfold body, process_repository, execute_aql_query, bind, print, emit, ret.
    cbn [trace posts clock_reads].
    fold url. fold aql_query. rewrite Ht.
    cbn [trace posts clock_reads truthy].
    rewrite <- !app_assoc. reflexivity. }
  split; [ | split ].
  - unfold execute_aql_query, bind, print, emit, ret.
    fold url. rewrite Ht. cbn [trace posts clock_reads].
    rewrite <- !app_assoc. reflexivity.
  - exact Hbody.
  - cbn [for_each]. unfold bind at 1. rewrite Hbody. reflexivity.
Qed.

Lemma C5_failed_query_is_skipped_witness :
  exists w',
    process_repository iso8601_utc_column flaky_network sample_clock charts_ok
      "https://artifactory.example.org/artifactory" "reporter" "secret"
      "libs-release" initial_world = (w', Ok tt) /\
    existsb is_save (trace w') = false /\
    for_each ["libs-release"; "libs-snapshot"]
      (process_repository iso8601_utc_column flaky_network sample_clock charts_ok
         "https://artifactory.example.org/artifactory" "reporter" "secret")
      initial_world
    = for_each ["libs-snapshot"]
        (process_repository iso8601_utc_column flaky_network sample_clock charts_ok
           "https://artifactory.example.org/artifactory" "reporter" "secret")
        w'.
Proof.
  destruct (C5_failed_query_is_skipped iso8601_utc_column flaky_network sample_clock
              charts_ok "https://artifactory.example.org/artifactory" "reporter"
              "secret" "libs-release" ["libs-snapshot"] initial_world I)
    as [text [_ [Hbody Hloop]]].
  eexists. split; [exact Hbody | ]. split; [reflexivity | exact Hloop].
Defined.

(** C10.  The loop tests the truth value of what [execute_aql_query]
    returns: when the request succeeds and the decoded body is falsy, the
    executor returns the body, and the loop body prints the failure
    diagnostic, processes no result and saves no workbook, as after a
    failed request. *)
Theorem C10_falsy_body_is_treated_as_failure
    (parse_column : list json -> option (option Z * list (option Z)))
    (network : nat -> string -> string -> string -> string -> http_outcome)
    (clock : nat -> datetime) (render_charts : DataFrame -> result unit)
    (artifactory_url username password repository_name : string)
    (status : Z) (reason : string) (decoded : json) (w : World) :
  let url := (artifactory_url ++ "/api/search/aql")%string in
  let aql_query := generate_aql_query repository_name in
  network (posts w) url username password aql_query = Response status reason (inl decoded) ->
  200 <= status < 300 ->
  truthy decoded = false ->
  execute_aql_query network aql_query artifactory_url username password w =
    (mkWorld (trace w ++ [EPost url username password aql_query])
             (S (posts w)) (clock_reads w),
     Ok decoded) /\
  process_repository parse_column network clock render_charts
    artifactory_url username password repository_name w =
    (mkWorld (trace w ++
                [EPrint ("Processing repository: " ++ repository_name);
                 EPrint ("Generated AQL query: " ++ aql_query);
                 EPost url username password aql_query;
                 EPrint ("Failed to retrieve data for repository "
                           ++ repository_name ++ ".")])
             (S (posts w)) (clock_reads w),
     Ok tt).
Proof.
  intros url aql_query Hnet Hstatus Hfalsy.
  pose proof (try_request_success status reason url decoded Hstatus) as Ht.
  split.
  - unfold execute_aql_query. fold url. rewrite Hnet, Ht. reflexivity.
  - unfold process_repository, execute_aql_query, bind, print, emit, ret.
    cbn [trace posts clock_reads].
    fold url. fold aql_query. rewrite Hnet, Ht, Hfalsy.
    cbn [trace posts clock_reads].
    rewrite <- !app_assoc. reflexivity.
Qed.

Lemma C10_falsy_body_is_treated_as_failure_witness :
  exists w',
    process_repository iso8601_utc_column
      (constant_network (Response 200 "OK" (inl (JObj [])))) sample_clock charts_ok
      "https://artifactory.example.org/artifactory" "reporter" "secret"
      "libs-release" initial_world = (w', Ok tt) /\
    existsb is_save (trace w') = false /\
    In (EPrint "Failed to retrieve data for repository libs-release.") (trace w').
Proof.
  destruct (C10_falsy_body_is_treated_as_failure iso8601_utc_column
              (constant_network (Response 200 "OK" (inl (JObj [])))) sample_clock
              charts_ok "https://artifactory.example.org/artifactory" "reporter"
              "secret" "libs-release" 200 "OK" (JObj []) initial_world
              eq_refl ltac:(lia) eq_refl) as [_ Hbody].
  eexists. split; [exact Hbody | ].
  split; [reflexivity | ].
  simpl. right. right. right. left. reflexivity.
Defined.

(** ** Whole runs *)

(** A run over two repositories in which the first request fails: the
    second repository is processed and its workbook is saved. *)
Example flaky_run_saves_second :
  let '(w, r) := main iso8601_utc_column flaky_network sample_clock charts_ok
                   sample_environment no_flags initial_world in
  r = Ok tt /\
  map (fun e => match e with ESave wb => wb_filename wb | _ => EmptyString end)
      (filter is_save (trace w))
    = ["libs-snapshot-2024Apr01T1200HZ-stats.xlsx"] /\
  posts w = 2%nat.
Proof. vm_compute. repeat split. Qed.

(** In the workbook of the sample response, the item of 2^30 bytes has
    [size_in_gb] 1.0, and the item of 2^27 bytes 0.12. *)
Example sample_run_size_in_gb :
  let '(w, _) := main iso8601_utc_column
                   (constant_network (Response 200 "OK" (inl sample_response)))
                   sample_clock charts_ok
                   (mkEnvironment (Some "https://artifactory.example.org/artifactory")
                                  (Some "reporter") (Some "secret") (Some "libs-release"))
                   no_flags initial_world in
  map (fun e => match e with
                | ESave wb => column "size_in_gb" (columns (wb_data wb))
                | _ => None
                end) (filter is_save (trace w))
  = [Some (SFloat [Some 1%Q; Some (3 # 25)%Q])].
Proof. vm_compute. reflexivity. Qed.

(** The environment variable set to the empty string gives the list of
    one empty repository name, which passes the check of
    [get_configuration]. *)
Example empty_names_variable :
  get_configuration
    (mkEnvironment (Some "https://artifactory.example.org/artifactory")
                   (Some "reporter") (Some "secret") (Some EmptyString))
    no_flags
  = Ok ("https://artifactory.example.org/artifactory", "reporter", "secret", [EmptyString]).
Proof. reflexivity. Qed.

(** A complete configuration is returned as merged, a flag taking
    precedence over the environment. *)
Example complete_configuration :
  get_configuration sample_environment
    (mkCommandLine None (Some "auditor") None (Some ["docker-local"]))
  = Ok ("https://artifactory.example.org/artifactory", "auditor", "secret",
        ["docker-local"]).
Proof. reflexivity. Qed.

(** * Further properties of the script *)

Local Close Scope io_scope.
Local Open Scope result_scope.

(** ** [get_configuration] *)

Lemma missing_false_iff (v : option string) :
  missing v = false <-> exists s, v = Some s /\ s <> EmptyString.
Proof.
  destruct v as [s |]; simpl.
  - rewrite String.eqb_neq. split.
    + intros H. exists s. split; [reflexivity | exact H].
    + intros [s' [E H]]. injection E as ->. exact H.
  - split; [discriminate | intros [s' [E _]]; discriminate E].
Qed.

(** X1.  [get_configuration] returns exactly when the merged URL, user
    name and password are non-empty strings and the merged list of names
    is not empty, and it returns the merged values. *)
Theorem get_configuration_ok_iff (env : Environment) (cli : CommandLine)
    (url user pass : string) (names : list string) :
  get_configuration env cli = Ok (url, user, pass, names) <->
  (args_artifactory_url env cli = Some url /\ url <> EmptyString) /\
  (args_username env cli = Some user /\ user <> EmptyString) /\
  (args_password env cli = Some pass /\ pass <> EmptyString) /\
  (args_repository_names env cli = names /\ names <> []).
Proof.
  unfold get_configuration.
  destruct (args_artifactory_url env cli) as [u |]; simpl;
    [ | split; [discriminate | intros [[E _] _]; discriminate E] ].
  destruct (String.eqb_spec u EmptyString) as [-> | Hu]; simpl.
  { split; [discriminate | ]. intros [[E H] _]. injection E as <-. contradiction. }
  destruct (args_username env cli) as [n |]; simpl;
    [ | split; [discriminate | intros [_ [[E _] _]]; discriminate E] ].
  destruct (String.eqb_spec n EmptyString) as [-> | Hn]; simpl.
  { split; [discriminate | ]. intros [_ [[E H] _]]. injection E as <-. contradiction. }
  destruct (args_password env cli) as [q |]; simpl;
    [ | split; [discriminate | intros [_ [_ [[E _] _]]]; discriminate E] ].
  destruct (String.eqb_spec q EmptyString) as [-> | Hq]; simpl.
  { split; [discriminate | ]. intros [_ [_ [[E H] _]]]. injection E as <-. contradiction. }
  destruct (args_repository_names env cli) as [| r l]; simpl.
  { split; [discriminate | ]. intros [_ [_ [_ [E H]]]]. subst names. contradiction. }
  split.
  - intros H. injection H as <- <- <- <-. repeat split; try assumption. discriminate.
  - intros [[E1 _] [[E2 _] [[E3 _] [E4 _]]]].
    injection E1 as <-. injection E2 as <-. injection E3 as <-. subst names. reflexivity.
Qed.

(** A value given by a flag takes precedence over the environment: when
    the four flags are given, the environment is not consulted. *)
Example flags_override_environment (env env' : Environment)
    (url user pass : string) (names : list string) :
  get_configuration env (mkCommandLine (Some url) (Some user) (Some pass) (Some names))
  = get_configuration env' (mkCommandLine (Some url) (Some user) (Some pass) (Some names)).
Proof. reflexivity. Qed.

Lemma split_comma_nonempty (s : string) : split_comma s <> [].
Proof.
  induction s as [| c s IH]; simpl; [discriminate | ].
  destruct (Ascii.eqb c ","); [discriminate | ].
  destruct (split_comma s); discriminate.
Qed.

Lemma split_comma_join (s : string) : String.concat "," (split_comma s) = s.
Proof.
  induction s as [| c s IH]; simpl; [reflexivity | ].
  destruct (Ascii.eqb_spec c ","%char) as [-> | Hc].
  - destruct (split_comma s) as [| piece pieces] eqn:E.
    + destruct (split_comma_nonempty s E).
    + cbn [String.concat]. rewrite <- IH. reflexivity.
  - destruct (split_comma s) as [| piece pieces] eqn:E.
    + destruct (split_comma_nonempty s E).
    + rewrite <- IH. destruct pieces; reflexivity.
Qed.

Lemma split_comma_pieces (s : string) :
  Forall (fun piece => has_comma piece = false) (split_comma s).
Proof.
  induction s as [| c s IH]; simpl.
  - constructor; [reflexivity | constructor].
  - destruct (Ascii.eqb c ",") eqn:Ec.
    + constructor; [reflexivity | exact IH].
    + destruct (split_comma s) as [| piece pieces].
      * constructor; [simpl; rewrite Ec; reflexivity | constructor].
      * inversion IH as [| ? ? Hp Hps]; subst.
        constructor; [simpl; rewrite Ec; exact Hp | exact Hps].
Qed.

(** X2.  The variable REPOSITORY_NAMES is cut at its commas and nowhere
    else: the names joined by commas give the variable back, no name
    holds a comma, and a variable that is set gives at least one name, so
    that without the flag the check of the names cannot fail. *)
Theorem repository_names_from_environment (env : Environment) (cli : CommandLine)
    (value : string) :
  REPOSITORY_NAMES env = Some value ->
  flag_repository_names cli = None ->
  String.concat "," (args_repository_names env cli) = value /\
  Forall (fun piece => has_comma piece = false) (args_repository_names env cli) /\
  no_names (args_repository_names env cli) = false.
Proof.
  intros He Hf. unfold args_repository_names. rewrite He, Hf. simpl.
  split; [apply split_comma_join | ].
  split; [apply split_comma_pieces | ].
  pose proof (split_comma_nonempty value) as H.
  destruct (split_comma value); [contradiction | reflexivity].
Qed.

Lemma repository_names_from_environment_witness :
  String.concat "," (args_repository_names sample_environment no_flags)
    = "libs-release,libs-snapshot" /\
  Forall (fun piece => has_comma piece = false)
         (args_repository_names sample_environment no_flags) /\
  no_names (args_repository_names sample_environment no_flags) = false.
Proof.
  apply (repository_names_from_environment sample_environment no_flags
           "libs-release,libs-snapshot"); reflexivity.
Defined.

(** ** [generate_aql_query] *)

Lemma string_length_app (a b : string) :
  String.length (a ++ b) = (String.length a + String.length b)%nat.
Proof. induction a as [| c a IH]; simpl; [reflexivity | rewrite IH; reflexivity]. Qed.

Lemma string_app_inv_length (a b s s' : string) :
  (a ++ s = b ++ s')%string -> String.length s = String.length s' -> a = b /\ s = s'.
Proof.
  revert b. induction a as [| c a IH]; intros [| d b] H Hlen; simpl in H.
  - split; [reflexivity | exact H].
  - apply (f_equal String.length) in H. simpl in H. rewrite string_length_app in H. lia.
  - apply (f_equal String.length) in H. simpl in H. rewrite string_length_app in H. lia.
  - injection H as -> H. destruct (IH b H Hlen) as [-> ->]. split; reflexivity.
Qed.



(** ** [process_results] *)

Lemma mapM_length {A B : Type} (f : A -> result B) (l : list A) :
  forall bs, mapM f l = Ok bs -> List.length bs = List.length l.
Proof.
  induction l as [| x l IH]; intros bs H; simpl in H.
  - injection H as <-. reflexivity.
  - destruct (f x) as [b |]; simpl in H; [ | discriminate H ].
    destruct (mapM f l) as [bs' |]; simpl in H; [ | discriminate H ].
    injection H as <-. simpl. rewrite (IH bs' eq_refl). reflexivity.
Qed.

(** X4.  An item is normalized to a row exactly when it is a dict whose
    "stats" entry is absent or is a list that starts with a dict; a
    missing key other than "stats" never makes the normalization raise. *)
Theorem process_item_ok_iff (item : json) :
  (exists r, process_item item = Ok r) <->
  (exists kv, item = JObj kv /\
     (assoc "stats" kv = None \/
      exists entry rest, assoc "stats" kv = Some (JList (JObj entry :: rest)))).
Proof.
  split.
  - intros [r H]. destruct item as [| b | n | s | l | kv]; try discriminate H.
    exists kv. split; [reflexivity | ].
    rewrite process_item_obj in H. cbv zeta in H.
    destruct (assoc "stats" kv) as [v |] eqn:Ev; [ | left; reflexivity ].
    right. rewrite !(stat_field_present _ _ _ _ Ev) in H.
    destruct v as [| b | n | s | [| first rest] | kv']; try discriminate H.
    + destruct s; discriminate H.
    + destruct first as [| b | n | s | l | entry]; try discriminate H.
      exists entry, rest. reflexivity.
  - intros [kv [-> [Hs | [entry [rest Hs]]]]]; rewrite process_item_obj; cbv zeta.
    + rewrite !(stat_field_absent _ _ _ Hs). eexists. reflexivity.
    + rewrite !(stat_field_present _ _ _ _ Hs). simpl.
      destruct (assoc "downloads" entry), (assoc "downloaded_by" entry),
        (assoc "downloaded" entry); eexists; reflexivity.
Qed.

(** X5.  Of the "stats" list only the first entry is read: two items that
    agree on every other key and on the first entry of "stats" are
    normalized alike. *)
Theorem process_item_first_stats_entry
    (kv kv' : list (string * json)) (first : json) (rest rest' : list json) :
  (forall key, String.eqb key "stats" = false -> assoc key kv = assoc key kv') ->
  assoc "stats" kv = Some (JList (first :: rest)) ->
  assoc "stats" kv' = Some (JList (first :: rest')) ->
  process_item (JObj kv) = process_item (JObj kv').
Proof.
  intros Hother Hs Hs'.
  rewrite !process_item_obj. cbv zeta.
  rewrite !(stat_field_present _ _ _ _ Hs), !(stat_field_present _ _ _ _ Hs').
  rewrite !Hother by reflexivity. reflexivity.
Qed.

Lemma process_item_first_stats_entry_witness :
  process_item (JObj [("name", JStr "a.jar");
                      ("stats", JList [JObj [("downloads", JNum 3)];
                                       JObj [("downloads", JNum 99)]])])
  = process_item (JObj [("name", JStr "a.jar");
                        ("stats", JList [JObj [("downloads", JNum 3)]])]).
Proof.
  apply (process_item_first_stats_entry _ _ (JObj [("downloads", JNum 3)])
           [JObj [("downloads", JNum 99)]] []); [ | reflexivity | reflexivity ].
  intros key Hkey. simpl. rewrite Hkey. reflexivity.
Defined.

(** X6.  The table has one line per item of the response, in the order of
    the response: the number of lines is the number of items, and in
    the columns of names, paths, types, actors and unparsed timestamps the
    cell of line [i] is the value of the key in the [i]-th item, or [None]
    when the item lacks the key. *)
Theorem process_results_one_row_per_item
    (parse_column : list json -> option (option Z * list (option Z)))
    (res : json) (items : list json) (w w' : World) (df : DataFrame) :
  py_get res "results" (JList []) = Ok (JList items) ->
  process_results parse_column res w = (w', Ok df) ->
  nrows df = List.length items /\
  forall i kv key,
    nth_error items i = Some (JObj kv) ->
    In key ["repo"; "path"; "name"; "type"; "created_by"; "modified";
            "modified_by"; "updated"] ->
    cell df key i = Some (match assoc key kv with Some v => v | None => JNull end).
Proof.
  intros Hres Hp.
  destruct (process_results_table _ _ _ _ _ Hp) as [rows [Hrows Hcols]].
  pose proof Hrows as Hrows'.
  unfold processed_results in Hrows'. rewrite Hres in Hrows'. simpl in Hrows'.
  split.
  - unfold process_results, bind, lift in Hp. rewrite Hrows in Hp.
    rewrite <- (mapM_length _ _ _ Hrows').
    destruct rows as [| r rows].
    + simpl in Hp. injection Hp as _ <-. reflexivity.
    + cbn [DataFrame_of_rows has_column columns column String.eqb Ascii.eqb Bool.eqb] in Hp.
      cbn [getitem columns column String.eqb Ascii.eqb Bool.eqb] in Hp.
      destruct (to_datetime parse_column _) as [c' |]; [ | discriminate Hp ].
      unfold ret in Hp. injection Hp as _ <-. reflexivity.
  - intros i kv key Hi Hkey.
    destruct (mapM_nth_error _ _ _ _ _ Hrows' Hi) as [r [Hr Hnth]].
    rewrite process_item_obj in Hr. cbv zeta in Hr.
    destruct (stat_field (JObj kv) "downloads" (JNum 0)) as [d1 |]; [ | discriminate Hr ].
    destruct (stat_field (JObj kv) "downloaded_by" (JStr "N/A")) as [d2 |];
      [ | discriminate Hr ].
    destruct (stat_field (JObj kv) "downloaded" (JStr "N/A")) as [d3 |];
      [ | discriminate Hr ].
    simpl in Hr. injection Hr as <-.
    assert (Hne : exists r0 rows0, rows = r0 :: rows0).
    { destruct rows as [| r0 rows0]; [destruct i; discriminate Hnth | eauto]. }
    destruct Hne as [r0 [rows0 ->]].
    unfold cell.
    simpl in Hkey.
    repeat (destruct Hkey as [<- | Hkey]);
      try (rewrite Hcols by reflexivity;
           cbn [DataFrame_of_rows columns column String.eqb Ascii.eqb Bool.eqb];
           match goal with
           | |- nth_error (map ?f _) _ = _ => apply (map_nth_error f) in Hnth; exact Hnth
           end).
    destruct Hkey.
Qed.

Lemma process_results_one_row_per_item_witness :
  nrows sample_table = 2%nat /\
  cell sample_table "name" 1 = Some (JStr "app-1.1.jar").
Proof.
  destruct (process_results_one_row_per_item iso8601_utc_column sample_response
              [sample_item_with_stats; sample_item_without_stats]
              initial_world sample_warm_world sample_table eq_refl eq_refl)
    as [Hn Hcell].
  split; [exact Hn | ].
  apply (Hcell 1%nat _ "name" eq_refl). simpl. tauto.
Defined.

(** ** [remove_timezone] *)

Lemma to_datetime_inv
    (parse_column : list json -> option (option Z * list (option Z)))
    (s s' : Series) :
  to_datetime parse_column s = Ok s' -> exists tz stamps, s' = SDatetime tz stamps.
Proof.
  destruct s as [cells | tz stamps | ints | floats]; simpl; intros H.
  - destruct (parse_column cells) as [[tz stamps] |]; [ | discriminate H ].
    injection H as <-. eauto.
  - injection H as <-. eauto.
  - injection H as <-. eauto.
  - injection H as <-. eauto.
Qed.

Lemma to_datetime_raise
    (parse_column : list json -> option (option Z * list (option Z)))
    (s : Series) (e : exn) :
  to_datetime parse_column s = Raise e -> e = ValueError "Mixed timezones detected".
Proof.
  destruct s as [cells | tz stamps | ints | floats]; simpl; intros H; try discriminate H.
  destruct (parse_column cells) as [[tz stamps] |]; [discriminate H | ].
  injection H as <-. reflexivity.
Qed.

Lemma map_fst_set_column (c : string) (s : Series) (cols : list (string * Series)) :
  map fst (set_column c s cols) = names_after_set c (map fst cols).
Proof.
  unfold names_after_set.
  induction cols as [| [k v] cols IH]; simpl; [reflexivity | ].
  destruct (String.eqb c k) eqn:Ek; simpl.
  - apply String.eqb_eq in Ek. subst k. reflexivity.
  - rewrite IH. destruct (existsb (String.eqb c) (map fst cols)); reflexivity.
Qed.

Lemma names_setitem_present (df : DataFrame) (c : string) (s s0 : Series) :
  getitem df c = Ok s0 -> map fst (columns (setitem df c s)) = map fst (columns df).
Proof.
  unfold getitem, setitem. cbn [columns]. intros H.
  rewrite map_fst_set_column. unfold names_after_set.
  induction (columns df) as [| [k v] cols IH]; simpl in *; [discriminate H | ].
  destruct (String.eqb c k); simpl; [reflexivity | ].
  specialize (IH H).
  destruct (existsb (String.eqb c) (map fst cols)); [reflexivity | ].
  apply (f_equal (@List.length string)) in IH. rewrite length_app in IH. simpl in IH. lia.
Qed.

Lemma remove_timezone_names
    (parse_column : list json -> option (option Z * list (option Z)))
    (df df' : DataFrame) :
  remove_timezone parse_column df = Ok df' ->
  nrows df' = nrows df /\ map fst (columns df') = map fst (columns df).
Proof.
  intros H. split.
  - unfold remove_timezone in H. inv_rbind; reflexivity.
  - unfold remove_timezone in H. inv_rbind;
      repeat match goal with
      | H : getitem ?D ?c = Ok _ |- context [columns (setitem ?D ?c ?s)] =>
          rewrite (names_setitem_present D c s _ H)
      end; reflexivity.
Qed.

(** X7.  [remove_timezone] only rewrites the columns "created" and
    "modified": the number of lines, the names and the order of the
    columns, and every other column are those of the table it was
    given. *)
Theorem remove_timezone_preserves_table
    (parse_column : list json -> option (option Z * list (option Z)))
    (df df' : DataFrame) :
  remove_timezone parse_column df = Ok df' ->
  nrows df' = nrows df /\
  map fst (columns df') = map fst (columns df) /\
  forall c, c <> "created" -> c <> "modified" ->
            column c (columns df') = column c (columns df).
Proof.
  intros H. split; [ | split ].
  - exact (proj1 (remove_timezone_names _ _ _ H)).
  - exact (proj2 (remove_timezone_names _ _ _ H)).
  - intros c Hc Hm. apply String.eqb_neq in Hc, Hm.
    exact (remove_timezone_other_column _ _ _ _ H Hc Hm).
Qed.

Lemma remove_timezone_preserves_table_witness :
  nrows aware_table_stripped = nrows aware_table /\
  map fst (columns aware_table_stripped) = map fst (columns aware_table) /\
  forall c, c <> "created" -> c <> "modified" ->
            column c (columns aware_table_stripped) = column c (columns aware_table).
Proof.
  apply (remove_timezone_preserves_table iso8601_utc_column aware_table).
  reflexivity.
Defined.

Lemma remove_timezone_raise_cases
    (parse_column : list json -> option (option Z * list (option Z)))
    (df : DataFrame) (e : exn) :
  remove_timezone parse_column df = Raise e ->
  (e = KeyError "created" /\ has_column df "created" = false) \/
  (e = KeyError "modified" /\ has_column df "modified" = false /\
   has_column df "created" = true) \/
  e = ValueError "Mixed timezones detected".
Proof.
  unfold remove_timezone.
  destruct (getitem df "created") as [c | e0] eqn:E1; simpl.
  2: { unfold getitem in E1. unfold has_column.
       destruct (column "created" (columns df)); [discriminate E1 | ].
       injection E1 as <-. intros H. injection H as <-. left. split; reflexivity. }
  assert (Hc : has_column df "created" = true).
  { unfold getitem in E1. unfold has_column.
    destruct (column "created" (columns df)); [reflexivity | discriminate E1]. }
  destruct (to_datetime parse_column c) as [c' | e0] eqn:E2; simpl.
  2: { apply to_datetime_raise in E2. subst e0. intros H. injection H as <-.
       right. right. reflexivity. }
  rewrite getitem_setitem_other by reflexivity.
  destruct (getitem df "modified") as [m | e0] eqn:E3; simpl.
  2: { unfold getitem in E3. unfold has_column.
       destruct (column "modified" (columns df)); [discriminate E3 | ].
       injection E3 as <-. intros H. injection H as <-. right. left.
       repeat split. exact Hc. }
  destruct (to_datetime parse_column m) as [m' | e0] eqn:E4; simpl.
  2: { apply to_datetime_raise in E4. subst e0. intros H. injection H as <-.
       right. right. reflexivity. }
  rewrite getitem_setitem_other by reflexivity.
  rewrite getitem_setitem_same. simpl.
  destruct (to_datetime_inv _ _ _ E2) as [tz [stamps ->]].
  destruct (to_datetime_inv _ _ _ E4) as [tz' [stamps' ->]].
  destruct tz as [off |]; simpl;
    repeat first [ rewrite getitem_setitem_same
                 | rewrite getitem_setitem_other by reflexivity ];
    simpl; destruct tz' as [off' |]; simpl; intros H; discriminate H.
Qed.

(** X8.  [remove_timezone] raises [KeyError] for a missing timestamp
    column and for no other key: on "created" exactly when the table has
    no such column, and on "modified" only when "created" is there and
    "modified" is not. *)
Theorem remove_timezone_failures
    (parse_column : list json -> option (option Z * list (option Z)))
    (df : DataFrame) :
  (remove_timezone parse_column df = Raise (KeyError "created") <->
   has_column df "created" = false) /\
  (forall key, remove_timezone parse_column df = Raise (KeyError key) ->
     (key = "created" /\ has_column df "created" = false) \/
     (key = "modified" /\ has_column df "modified" = false /\
      has_column df "created" = true)).
Proof.
  split.
  - split.
    + intros H. destruct (remove_timezone_raise_cases _ _ _ H)
        as [[_ Hc] | [[He _] | He]]; [exact Hc | discriminate He | discriminate He].
    + unfold has_column, remove_timezone, getitem.
      destruct (column "created" (columns df)); [discriminate | reflexivity].
  - intros key H. destruct (remove_timezone_raise_cases _ _ _ H)
      as [[He Hc] | [[He Hm] | He]].
    + injection He as ->. left. split; [reflexivity | exact Hc].
    + injection He as ->. right. split; [reflexivity | exact Hm].
    + discriminate He.
Qed.

(** X9.  On an aware column "created" or "modified", [remove_timezone]
    replaces every instant by its wall-clock reading in the zone of the
    column, the offset being added, and leaves [NaT] cells [NaT]. *)
Theorem remove_timezone_wall_clock
    (parse_column : list json -> option (option Z * list (option Z)))
    (df df' : DataFrame) (c : string) (offset : Z) (stamps : list (option Z)) :
  c = "created" \/ c = "modified" ->
  column c (columns df) = Some (SDatetime (Some offset) stamps) ->
  remove_timezone parse_column df = Ok df' ->
  column c (columns df') =
  Some (SDatetime None
          (map (option_map (fun t => t + offset * (60 * 1000000000))) stamps)).
Proof.
  intros Hc Hcol H.
  assert (Hget : getitem df c = Ok (SDatetime (Some offset) stamps)).
  { unfold getitem. rewrite Hcol. reflexivity. }
  unfold remove_timezone in H.
  destruct Hc as [-> | ->].
  - rewrite Hget in H. cbn [rbind to_datetime] in H.
    inv_rbind;
      repeat match goal with
      | H : getitem (setitem _ ?c _) ?c = Ok _ |- _ =>
          rewrite getitem_setitem_same in H; injection H as H; subst
      | H : getitem (setitem _ ?c' _) ?c = Ok _ |- _ =>
          rewrite getitem_setitem_other in H by reflexivity
      end;
      repeat match goal with
      | H : dt_tz (SDatetime _ _) = Ok _ |- _ => simpl in H; injection H as H; subst
      | H : tz_localize_none (SDatetime _ _) = Ok _ |- _ =>
          simpl in H; injection H as H; subst
      end;
      try discriminate;
      unfold setitem; cbn [columns];
      repeat first [ rewrite column_set_column_same
                   | rewrite column_set_column_other by reflexivity ];
      reflexivity.
  - inv_rbind;
      repeat match goal with
      | H : getitem (setitem _ ?c _) ?c = Ok _ |- _ =>
          rewrite getitem_setitem_same in H; injection H as H; subst
      | H : getitem (setitem _ ?c' _) ?c = Ok _ |- _ =>
          rewrite getitem_setitem_other in H by reflexivity
      end;
      repeat match goal with
      | H : getitem df "modified" = Ok _ |- _ =>
          rewrite Hget in H; injection H as H; subst
      end;
      repeat match goal with
      | H : to_datetime _ (SDatetime _ _) = Ok _ |- _ => simpl in H; injection H as H; subst
      | H : dt_tz (SDatetime _ _) = Ok _ |- _ => simpl in H; injection H as H; subst
      | H : tz_localize_none (SDatetime _ _) = Ok _ |- _ =>
          simpl in H; injection H as H; subst
      end;
      try discriminate;
      unfold setitem; cbn [columns];
      repeat first [ rewrite column_set_column_same
                   | rewrite column_set_column_other by reflexivity ];
      reflexivity.
Qed.

Lemma remove_timezone_wall_clock_witness :
  column "created" (columns aware_table_stripped) =
  Some (SDatetime None
          (map (option_map (fun t => t + 120 * (60 * 1000000000)))
               [Some 1705314600000000000; None])).
Proof.
  apply (remove_timezone_wall_clock iso8601_utc_column aware_table aware_table_stripped
           "created" 120 [Some 1705314600000000000; None]);
    [left; reflexivity | reflexivity | reflexivity].
Defined.

(** ** [bytes_to_gb] *)

Lemma bytes_to_gb_hundredths (b : Z) :
  (bytes_to_gb b == round_half_even_hundredths b (2 ^ 30) # 100)%Q.
Proof. unfold bytes_to_gb. apply Qred_correct. Qed.

Lemma round_half_even_hundredths_monotone (b1 b2 : Z) :
  b1 <= b2 ->
  round_half_even_hundredths b1 (2 ^ 30) <= round_half_even_hundredths b2 (2 ^ 30).
Proof.
  intros Hle.
  destruct (Z.eq_dec b1 b2) as [-> | Hne]; [lia | ].
  pose proof (round_half_even_hundredths_close b1 (2 ^ 30) ltac:(lia)) as H1.
  pose proof (round_half_even_hundredths_close b2 (2 ^ 30) ltac:(lia)) as H2.
  change (2 ^ 30) with 1073741824 in *.
  lia.
Qed.

(** X10.  The size in GB grows with the size in bytes: a larger item never
    reports a smaller [size_in_gb]. *)
Theorem bytes_to_gb_monotone (b1 b2 : Z) :
  b1 <= b2 -> (bytes_to_gb b1 <= bytes_to_gb b2)%Q.
Proof.
  intros Hle. rewrite !bytes_to_gb_hundredths.
  pose proof (round_half_even_hundredths_monotone b1 b2 Hle) as H.
  unfold Qle. cbn [Qnum Qden]. lia.
Qed.

Lemma bytes_to_gb_monotone_witness : (bytes_to_gb 134217728 <= bytes_to_gb 1073741824)%Q.
Proof. apply (bytes_to_gb_monotone 134217728 1073741824). lia. Defined.

(** X11.  An item of at most 5368709 bytes (about 5 MiB), and also the
    size -1 that Artifactory gives for a folder, is reported as 0.0 GB;
    5368710 bytes are the first size reported as 0.01 GB. *)
Theorem bytes_to_gb_small_is_zero (b : Z) :
  -5368709 <= b <= 5368709 ->
  bytes_to_gb b = 0%Q /\ bytes_to_gb 5368710 = (1 # 100)%Q.
Proof.
  intros Hb. split; [ | reflexivity ].
  pose proof (round_half_even_hundredths_close b (2 ^ 30) ltac:(lia)) as H.
  unfold bytes_to_gb.
  change (1024 ^ 3) with (2 ^ 30).
  assert (Hk : round_half_even_hundredths b (2 ^ 30) = 0).
  { change (2 ^ 30) with 1073741824 in *. lia. }
  rewrite Hk. reflexivity.
Qed.

Lemma bytes_to_gb_small_is_zero_witness :
  bytes_to_gb 4194304 = 0%Q /\ bytes_to_gb 5368710 = (1 # 100)%Q.
Proof. apply (bytes_to_gb_small_is_zero 4194304). lia. Defined.

(** X12.  A whole number of GiB is converted exactly: [k * 2^30] bytes
    give [k]. *)
Theorem bytes_to_gb_whole (k : Z) :
  (bytes_to_gb (k * 2 ^ 30) == inject_Z k)%Q.
Proof.
  rewrite bytes_to_gb_hundredths.
  assert (Hk : round_half_even_hundredths (k * 2 ^ 30) (2 ^ 30) = k * 100).
  { unfold round_half_even_hundredths.
    replace (k * 2 ^ 30 * 100) with (k * 100 * 2 ^ 30) by ring.
    rewrite Z.div_mul, Z.mod_mul by lia. reflexivity. }
  rewrite Hk. unfold Qeq, inject_Z. cbn [Qnum Qden]. lia.
Qed.

(** ** The download histogram *)

Lemma total_count_download_summary_cons (d : option Z) (ds : list (option Z)) :
  total_count (download_summary (d :: ds)) =
  ((if positive_downloads d then 1 else 0) + total_count (download_summary ds))%nat.
Proof.
  unfold download_summary, download_labels, total_count.
  cbn [map fold_right snd filter].
  destruct d as [x |]; cbn [positive_downloads].
  - destruct (download_range_cases x)
      as [[Hx E] | [[Hx E] | [[Hx E] | [[Hx E] | [[Hx E] | [[Hx E] | [Hx E]]]]]]];
      rewrite E; cbn [label_eqb String.eqb Ascii.eqb Bool.eqb List.length];
      (destruct (Z.ltb_spec 0 x); [ | try lia ]); try lia.
  - cbn [download_range label_eqb List.length]. lia.
Qed.

(** X13.  The six counts of the download histogram add up to the number
    of rows with a positive download count; together with the rows
    counted as zero downloads and the rows with a negative or missing
    count they account for every row once. *)
Theorem download_summary_partition (ds : list (option Z)) :
  total_count (download_summary ds) = List.length (filter positive_downloads ds) /\
  (total_count (download_summary ds) + zero_downloads ds
   + List.length (filter no_downloads_value ds) = List.length ds)%nat.
Proof.
  induction ds as [| d ds [IH1 IH2]].
  - split; reflexivity.
  - rewrite total_count_download_summary_cons.
    unfold zero_downloads in *. cbn [filter].
    destruct d as [x |]; cbn [positive_downloads no_downloads_value].
    + destruct (Z.ltb_spec 0 x), (Z.eqb_spec x 0), (Z.ltb_spec x 0);
        cbn [List.length]; try lia.
    + cbn [List.length]. lia.
Qed.

(** ** File names and the sheet "Summary" *)

Lemma month_abbr_length (m : Z) : String.length (month_abbr m) = 3%nat.
Proof.
  unfold month_abbr.
  destruct m as [| p | p]; try reflexivity.
  do 4 (destruct p as [p | p |]; try reflexivity).
Qed.

Lemma stamp_suffix_length (t : datetime) :
  String.length ("-" ++ strftime_stamp t ++ "-stats.xlsx") = 28%nat.
Proof.
  unfold strftime_stamp, pad4, pad2.
  cbn [append String.length].
  rewrite !string_length_app, month_abbr_length. reflexivity.
Qed.

(** X14.  The workbooks of two different repositories never share a file
    name, whatever the clock reads: the name determines the repository
    name. *)
Theorem filename_determines_repository (r1 r2 : string) (t1 t2 : datetime) :
  r1 <> r2 -> filename r1 t1 <> filename r2 t2.
Proof.
  unfold filename. intros Hne H. apply Hne.
  apply string_app_inv_length in H; [exact (proj1 H) | ].
  rewrite (stamp_suffix_length t1), (stamp_suffix_length t2). reflexivity.
Qed.

Lemma filename_determines_repository_witness :
  filename "libs-release" (sample_clock 0) <> filename "libs-snapshot" (sample_clock 7).
Proof.
  apply (filename_determines_repository "libs-release" "libs-snapshot"). discriminate.
Defined.

(** X15.  The tables of the sheet "Summary" do not overlap: each of the
    four tables under the key-metric block starts two lines below the
    last line of the block above it, which leaves one blank line. *)
Theorem summary_blocks_do_not_overlap
    (summary_rows download_rows yearly_rows monthly_rows : nat) :
  startrow_download_summary summary_rows
    = (last_row 0 summary_rows + 2)%nat /\
  startrow_yearly_summary summary_rows download_rows
    = (last_row (startrow_download_summary summary_rows) download_rows + 2)%nat /\
  startrow_monthly_uploads summary_rows download_rows yearly_rows
    = (last_row (startrow_yearly_summary summary_rows download_rows) yearly_rows + 2)%nat /\
  startrow_uploads_by_user summary_rows download_rows yearly_rows monthly_rows
    = (last_row (startrow_monthly_uploads summary_rows download_rows yearly_rows)
                monthly_rows + 2)%nat.
Proof.
  unfold startrow_download_summary, startrow_yearly_summary, startrow_monthly_uploads,
    startrow_uploads_by_user, last_row.
  repeat split; lia.
Qed.

(** ** Effects of the stages *)

Local Open Scope io_scope.

Ltac run_io H :=
  repeat match type of H with
  | context [match ?m with Ok _ => _ | Raise _ => _ end] =>
      destruct m; cbn [trace posts clock_reads] in H
  end.

Ltac new_events :=
  eexists; split;
  [ first [ reflexivity
          | symmetry; apply app_nil_r
          | rewrite <- !app_assoc; reflexivity ] | ].

Lemma execute_aql_query_outcome
    (network : nat -> string -> string -> string -> string -> http_outcome)
    (aql_query artifactory_url username password : string) (w : World) :
  exists v tail,
    execute_aql_query network aql_query artifactory_url username password w =
      (mkWorld (trace w ++
                  EPost (artifactory_url ++ "/api/search/aql") username password aql_query
                  :: tail)
               (S (posts w)) (clock_reads w),
       Ok v) /\
    (tail = [] \/
     (v = JNull /\ exists text, tail = [EPrint ("Error executing AQL query: " ++ text)])).
Proof.
  unfold execute_aql_query, bind, print, emit, ret.
  destruct (try_request _ _) as [decoded | text].
  - exists decoded, []. split; [reflexivity | left; reflexivity].
  - exists JNull, [EPrint ("Error executing AQL query: " ++ text)].
    cbn [trace posts clock_reads]. rewrite <- app_assoc.
    split; [reflexivity | right; eauto].
Qed.



(** X17.  A response whose status is not in 400..599 and whose body
    decodes is a success, 2xx or not: the decoded body is returned
    unmodified and nothing is printed. *)
Theorem execute_aql_query_returns_body
    (network : nat -> string -> string -> string -> string -> http_outcome)
    (aql_query artifactory_url username password reason : string)
    (status : Z) (decoded : json) (w : World) :
  network (posts w) (artifactory_url ++ "/api/search/aql") username password aql_query
    = Response status reason (inl decoded) ->
  ~ (400 <= status < 600) ->
  execute_aql_query network aql_query artifactory_url username password w =
    (mkWorld (trace w ++
                [EPost (artifactory_url ++ "/api/search/aql") username password aql_query])
             (S (posts w)) (clock_reads w),
     Ok decoded).
Proof.
  intros Hnet Hstatus. unfold execute_aql_query. rewrite Hnet. simpl.
  destruct (Z.leb_spec 400 status), (Z.ltb_spec status 600); simpl;
    first [ lia | reflexivity ].
Qed.

Lemma execute_aql_query_returns_body_witness :
  execute_aql_query (constant_network (Response 304 "Not Modified" (inl sample_response)))
    "items.find()" "https://artifactory.example.org/artifactory" "reporter" "secret"
    initial_world =
  (mkWorld [EPost "https://artifactory.example.org/artifactory/api/search/aql"
              "reporter" "secret" "items.find()"] 1 0,
   Ok sample_response).
Proof.
  apply (execute_aql_query_returns_body
           (constant_network (Response 304 "Not Modified" (inl sample_response)))
           "items.find()" "https://artifactory.example.org/artifactory" "reporter"
           "secret" "Not Modified" 304 sample_response initial_world eq_refl).
  lia.
Defined.

Lemma process_results_effects
    (parse_column : list json -> option (option Z * list (option Z)))
    (res : json) (w w' : World) (r : result DataFrame) :
  process_results parse_column res w = (w', r) ->
  posts w' = posts w /\ clock_reads w' = clock_reads w /\
  exists new, trace w' = (trace w ++ new)%list /\
              filter is_post new = [] /\ filter is_save new = [].
Proof.
  unfold process_results, bind, lift, print, emit, ret. intros H.
  destruct (processed_results res) as [rows |]; cbn [trace posts clock_reads] in H.
  - destruct (has_column (DataFrame_of_rows rows) "created").
    + run_io H; injection H as <- <-; repeat split; new_events; split; reflexivity.
    + injection H as <- <-. cbn [trace posts clock_reads].
      repeat split; new_events; split; reflexivity.
  - injection H as <- <-. repeat split; new_events; split; reflexivity.
Qed.

Lemma write_to_excel_outcome
    (clock : nat -> datetime) (render_charts : DataFrame -> result unit)
    (df : DataFrame) (repository_name : string) (w w' : World) (r : result unit) :
  write_to_excel clock render_charts df repository_name w = (w', r) ->
  posts w' = posts w /\
  (clock_reads w <= clock_reads w' <= S (clock_reads w))%nat /\
  exists new,
    trace w' = (trace w ++ new)%list /\
    filter is_post new = [] /\
    (List.length (filter is_save new) <= 1)%nat /\
    (r = Ok tt ->
     clock_reads w' = S (clock_reads w) /\
     exists wb,
       wb_filename wb = filename repository_name (clock (clock_reads w)) /\
       new = [ESave wb;
              EPrint ("Excel file '" ++ wb_filename wb ++ "' created successfully!")]).
Proof.
  unfold write_to_excel, bind, lift, datetime_now, emit, print, ret.
  intros H. run_io H; injection H as <- <-; cbn [trace posts clock_reads];
    (split; [reflexivity | ]); (split; [lia | ]);
    new_events; cbn [filter is_post is_save List.length app];
    (split; [reflexivity | ]); (split; [lia | ]);
    intros Hr; try discriminate Hr.
  split; [reflexivity | ].
  match goal with
  | |- exists wb, _ /\ (ESave ?x :: _) = _ => exists x
  end.
  split; reflexivity.
Qed.

(** X18.  [write_to_excel] sends no request, reads the clock at most once
    and saves at most one workbook; when it returns, it has read the
    clock once, saved one workbook named after that reading, and
    printed the line that names the file. *)
Theorem write_to_excel_effects
    (clock : nat -> datetime) (render_charts : DataFrame -> result unit)
    (df : DataFrame) (repository_name : string) (w w' : World) (r : result unit) :
  write_to_excel clock render_charts df repository_name w = (w', r) ->
  posts w' = posts w /\
  (clock_reads w <= clock_reads w' <= S (clock_reads w))%nat /\
  exists new,
    trace w' = (trace w ++ new)%list /\
    filter is_post new = [] /\
    (List.length (filter is_save new) <= 1)%nat /\
    (r = Ok tt ->
     clock_reads w' = S (clock_reads w) /\
     exists wb,
       wb_filename wb = filename repository_name (clock (clock_reads w)) /\
       new = [ESave wb;
              EPrint ("Excel file '" ++ wb_filename wb ++ "' created successfully!")]).
Proof.
  exact (write_to_excel_outcome clock render_charts df repository_name w w' r).
Qed.

Lemma write_to_excel_effects_witness :
  exists w',
    write_to_excel sample_clock charts_ok sample_naive_table "libs-release" initial_world
      = (w', Ok tt) /\
    posts w' = 0%nat /\ clock_reads w' = 1%nat /\
    List.length (filter is_save (trace w')) = 1%nat.
Proof.
  eexists. split; [vm_compute; reflexivity | ].
  destruct (write_to_excel_effects sample_clock charts_ok sample_naive_table
              "libs-release" initial_world _ (Ok tt) eq_refl)
    as [Hp [_ [new [Ht [_ [_ Hr]]]]]].
  destruct (Hr eq_refl) as [Hc _].
  split; [exact Hp | ]. split; [exact Hc | reflexivity].
Defined.

Lemma process_repository_effects
    (parse_column : list json -> option (option Z * list (option Z)))
    (network : nat -> string -> string -> string -> string -> http_outcome)
    (clock : nat -> datetime) (render_charts : DataFrame -> result unit)
    (artifactory_url username password repository_name : string)
    (w w' : World) (r : result unit) :
  process_repository parse_column network clock render_charts
    artifactory_url username password repository_name w = (w', r) ->
  posts w' = S (posts w) /\
  (clock_reads w <= clock_reads w' <= S (clock_reads w))%nat /\
  exists new,
    trace w' = (trace w ++ new)%list /\
    filter is_post new = [request_for artifactory_url username password repository_name] /\
    (List.length (filter is_save new) <= 1)%nat.
Proof.
  unfold process_repository. unfold bind at 1 2 3. unfold print at 1 2, emit.
  cbn [trace posts clock_reads]. intros H.
  destruct (execute_aql_query_outcome network (generate_aql_query repository_name)
              artifactory_url username password
              (mkWorld ((trace w ++ [EPrint ("Processing repository: " ++ repository_name)])
                          ++ [EPrint ("Generated AQL query: "
                                        ++ generate_aql_query repository_name)])
                       (posts w) (clock_reads w)))
    as [v [tail [Hex Htail]]].
  rewrite Hex in H. cbn [trace posts clock_reads] in H. clear Hex.
  assert (Hfilter : filter is_post tail = [] /\ filter is_save tail = []).
  { destruct Htail as [-> | [_ [text ->]]]; split; reflexivity. }
  destruct Hfilter as [Hfp Hfs].
  destruct (truthy v).
  - unfold bind in H.
    destruct (process_results parse_column v _) as [w1 [df |]] eqn:Ep.
    + destruct (process_results_effects _ _ _ _ _ Ep) as [P1 [C1 [n1 [T1 [F1 S1]]]]].
      cbn [trace posts clock_reads] in P1, C1, T1.
      unfold lift in H.
      destruct (remove_timezone parse_column df) as [df1 |].
      * destruct (write_to_excel_outcome _ _ _ _ _ _ _ H)
          as [P2 [C2 [n2 [T2 [F2 [S2 _]]]]]].
        split; [lia | ]. split; [lia | ].
        exists ([EPrint ("Processing repository: " ++ repository_name);
                 EPrint ("Generated AQL query: " ++ generate_aql_query repository_name);
                 request_for artifactory_url username password repository_name]
                  ++ tail ++ n1 ++ n2)%list.
        split.
        { rewrite T2, T1. rewrite <- !app_assoc. reflexivity. }
        rewrite !filter_app, Hfp, Hfs, F1, F2, S1. cbn [filter is_post is_save request_for app].
        split; [reflexivity | exact S2].
      * injection H as <- <-.
        split; [lia | ]. split; [lia | ].
        exists ([EPrint ("Processing repository: " ++ repository_name);
                 EPrint ("Generated AQL query: " ++ generate_aql_query repository_name);
                 request_for artifactory_url username password repository_name]
                  ++ tail ++ n1)%list.
        split.
        { rewrite T1. rewrite <- !app_assoc. reflexivity. }
        rewrite !filter_app, Hfp, Hfs, F1, S1. cbn [filter is_post is_save request_for app].
        split; [reflexivity | simpl; lia].
    + destruct (process_results_effects _ _ _ _ _ Ep) as [P1 [C1 [n1 [T1 [F1 S1]]]]].
      cbn [trace posts clock_reads] in P1, C1, T1.
      injection H as <- <-.
      split; [lia | ]. split; [lia | ].
      exists ([EPrint ("Processing repository: " ++ repository_name);
               EPrint ("Generated AQL query: " ++ generate_aql_query repository_name);
               request_for artifactory_url username password repository_name]
                ++ tail ++ n1)%list.
      split.
      { rewrite T1. rewrite <- !app_assoc. reflexivity. }
      rewrite !filter_app, Hfp, Hfs, F1, S1. cbn [filter is_post is_save request_for app].
      split; [reflexivity | simpl; lia].
  - unfold print, emit in H. injection H as <- <-. cbn [trace posts clock_reads].
    split; [reflexivity | ]. split; [lia | ].
    exists ([EPrint ("Processing repository: " ++ repository_name);
             EPrint ("Generated AQL query: " ++ generate_aql_query repository_name);
             request_for artifactory_url username password repository_name]
              ++ tail
              ++ [EPrint ("Failed to retrieve data for repository "
                            ++ repository_name ++ ".")])%list.
    split.
    { rewrite <- !app_assoc. reflexivity. }
    rewrite !filter_app, Hfp, Hfs. cbn [filter is_post is_save request_for app].
    split; [reflexivity | simpl; lia].
Qed.

(** ** The loop of [main] *)

Lemma for_each_requests
    (parse_column : list json -> option (option Z * list (option Z)))
    (network : nat -> string -> string -> string -> string -> http_outcome)
    (clock : nat -> datetime) (render_charts : DataFrame -> result unit)
    (artifactory_url username password : string) (names : list string) :
  forall (w w' : World) (r : result unit),
    for_each names
      (process_repository parse_column network clock render_charts
         artifactory_url username password) w = (w', r) ->
    exists (k : nat) (new : list event),
      (k <= List.length names)%nat /\
      trace w' = (trace w ++ new)%list /\
      filter is_post new
        = map (request_for artifactory_url username password) (firstn k names) /\
      posts w' = (posts w + k)%nat /\
      (List.length (filter is_save new) <= k)%nat /\
      (r = Ok tt -> k = List.length names).
Proof.
  induction names as [| name names IH]; intros w w' r H.
  - cbn [for_each] in H. unfold ret in H. injection H as <- <-.
    exists 0%nat, []. rewrite app_nil_r. simpl. repeat split; lia.
  - cbn [for_each] in H. unfold bind in H.
    destruct (process_repository _ _ _ _ _ _ _ name w) as [w1 r1] eqn:E1.
    destruct (process_repository_effects _ _ _ _ _ _ _ _ _ _ _ E1)
      as [P1 [_ [n1 [T1 [F1 S1]]]]].
    destruct r1 as [[] | e].
    + destruct (IH _ _ _ H) as [k [n2 [Hk [T2 [F2 [P2 [S2 Hr]]]]]]].
      exists (S k), (n1 ++ n2)%list.
      rewrite T2, T1, <- app_assoc, !filter_app, F1, F2, length_app.
      cbn [firstn map app List.length].
      repeat split; try lia. intros Hok. rewrite (Hr Hok). reflexivity.
    + injection H as <- <-.
      exists 1%nat, n1. rewrite T1, F1. cbn [firstn map List.length].
      repeat split; try lia. intros Hok. discriminate Hok.
Qed.

(** X19.  [main] sends its requests to the configured endpoint only, with
    the configured credentials, one per repository name and in the order
    of the configuration: the requests of a run are those of the first
    [k] names, all the names when the run ends without an exception, and
    at most [k] workbooks are saved. *)
Theorem main_requests
    (parse_column : list json -> option (option Z * list (option Z)))
    (network : nat -> string -> string -> string -> string -> http_outcome)
    (clock : nat -> datetime) (render_charts : DataFrame -> result unit)
    (env : Environment) (cli : CommandLine)
    (artifactory_url username password : string) (names : list string)
    (w w' : World) (r : result unit) :
  get_configuration env cli = Ok (artifactory_url, username, password, names) ->
  main parse_column network clock render_charts env cli w = (w', r) ->
  exists (k : nat) (new : list event),
    (k <= List.length names)%nat /\
    trace w' = (trace w ++ new)%list /\
    filter is_post new
      = map (request_for artifactory_url username password) (firstn k names) /\
    posts w' = (posts w + k)%nat /\
    (List.length (filter is_save new) <= k)%nat /\
    (r = Ok tt -> k = List.length names).
Proof.
  intros Hcfg H. unfold main, bind, lift in H. rewrite Hcfg in H.
  exact (for_each_requests _ _ _ _ _ _ _ _ _ _ _ H).
Qed.

Lemma main_requests_witness :
  exists (k : nat) (new : list event),
    (k <= 2)%nat /\
    trace (fst (main iso8601_utc_column flaky_network sample_clock charts_ok
                  sample_environment no_flags initial_world)) = ([] ++ new)%list /\
    filter is_post new
      = map (request_for "https://artifactory.example.org/artifactory" "reporter" "secret")
            (firstn k ["libs-release"; "libs-snapshot"]) /\
    posts (fst (main iso8601_utc_column flaky_network sample_clock charts_ok
                  sample_environment no_flags initial_world)) = (0 + k)%nat /\
    (List.length (filter is_save new) <= k)%nat /\
    (snd (main iso8601_utc_column flaky_network sample_clock charts_ok
            sample_environment no_flags initial_world) = Ok tt -> k = 2%nat).
Proof.
  apply (main_requests iso8601_utc_column flaky_network sample_clock charts_ok
           sample_environment no_flags
           "https://artifactory.example.org/artifactory" "reporter" "secret"
           ["libs-release"; "libs-snapshot"] initial_world).
  - reflexivity.
  - apply surjective_pairing.
Defined.

Lemma process_repository_failed
    (parse_column : list json -> option (option Z * list (option Z)))
    (network : nat -> string -> string -> string -> string -> http_outcome)
    (clock : nat -> datetime) (render_charts : DataFrame -> result unit)
    (artifactory_url username password repository_name : string) (w : World) :
  transport_or_http_error
    (network (posts w) (artifactory_url ++ "/api/search/aql") username password
       (generate_aql_query repository_name)) ->
  exists text,
    process_repository parse_column network clock render_charts
      artifactory_url username password repository_name w =
    (mkWorld (trace w ++
                [EPrint ("Processing repository: " ++ repository_name);
                 EPrint ("Generated AQL query: " ++ generate_aql_query repository_name);
                 request_for artifactory_url username password repository_name;
                 EPrint ("Error executing AQL query: " ++ text);
                 EPrint ("Failed to retrieve data for repository "
                           ++ repository_name ++ ".")])
             (S (posts w)) (clock_reads w),
     Ok tt).
Proof.
  intros H.
  destruct (try_request_error _ (artifactory_url ++ "/api/search/aql") H) as [text Ht].
  exists text.
  unfold process_repository, execute_aql_query, bind, print, emit, ret, request_for.
  cbn [trace posts clock_reads]. rewrite Ht.
  cbn [trace posts clock_reads truthy].
  rewrite <- !app_assoc. reflexivity.
Qed.

Lemma for_each_all_failed
    (parse_column : list json -> option (option Z * list (option Z)))
    (network : nat -> string -> string -> string -> string -> http_outcome)
    (clock : nat -> datetime) (render_charts : DataFrame -> result unit)
    (artifactory_url username password : string) (names : list string) :
  (forall n url user pass data, transport_or_http_error (network n url user pass data)) ->
  forall w : World,
  exists w',
    for_each names
      (process_repository parse_column network clock render_charts
         artifactory_url username password) w = (w', Ok tt) /\
    posts w' = (posts w + List.length names)%nat /\
    clock_reads w' = clock_reads w /\
    filter is_save (trace w') = filter is_save (trace w) /\
    (forall e, In e (trace w) -> In e (trace w')) /\
    (forall name, In name names ->
       In (EPrint ("Failed to retrieve data for repository " ++ name ++ ".")) (trace w')).
Proof.
  intros Hdown. induction names as [| name names IH]; intros w.
  - exists w. cbn [for_each]. unfold ret. simpl.
    repeat split; try lia; auto; intros name [].
  - destruct (process_repository_failed parse_column network clock render_charts
                artifactory_url username password name w (Hdown _ _ _ _ _))
      as [text Hbody].
    destruct (IH (mkWorld (trace w ++
                [EPrint ("Processing repository: " ++ name);
                 EPrint ("Generated AQL query: " ++ generate_aql_query name);
                 request_for artifactory_url username password name;
                 EPrint ("Error executing AQL query: " ++ text);
                 EPrint ("Failed to retrieve data for repository " ++ name ++ ".")])
             (S (posts w)) (clock_reads w)))
      as [w' [Hloop [Hp [Hc [Hs [Hkeep Hfail]]]]]].
    cbn [trace posts clock_reads] in Hp, Hc, Hs, Hkeep.
    exists w'. cbn [for_each]. unfold bind at 1. rewrite Hbody.
    split; [exact Hloop | ].
    split; [simpl; lia | ].
    split; [exact Hc | ].
    split.
    { rewrite Hs, filter_app. cbn [filter is_save request_for]. apply app_nil_r. }
    split.
    { intros e He. apply Hkeep. apply in_or_app. left. exact He. }
    intros n [<- | Hn].
    + apply Hkeep. apply in_or_app. right. simpl. tauto.
    + exact (Hfail n Hn).
Qed.

(** X20.  When every request fails, by the transport layer or with an
    error status, [main] ends without an exception after one request per
    repository name: it reads no clock, saves no workbook, and prints
    the failure line of every name. *)
Theorem main_all_queries_fail
    (parse_column : list json -> option (option Z * list (option Z)))
    (network : nat -> string -> string -> string -> string -> http_outcome)
    (clock : nat -> datetime) (render_charts : DataFrame -> result unit)
    (env : Environment) (cli : CommandLine)
    (artifactory_url username password : string) (names : list string) (w : World) :
  (forall n url user pass data, transport_or_http_error (network n url user pass data)) ->
  get_configuration env cli = Ok (artifactory_url, username, password, names) ->
  exists w',
    main parse_column network clock render_charts env cli w = (w', Ok tt) /\
    posts w' = (posts w + List.length names)%nat /\
    clock_reads w' = clock_reads w /\
    filter is_save (trace w') = filter is_save (trace w) /\
    (forall name, In name names ->
       In (EPrint ("Failed to retrieve data for repository " ++ name ++ ".")) (trace w')).
Proof.
  intros Hdown Hcfg.
  destruct (for_each_all_failed parse_column network clock render_charts
              artifactory_url username password names Hdown w)
    as [w' [Hloop [Hp [Hc [Hs [_ Hfail]]]]]].
  exists w'. unfold main, bind, lift. rewrite Hcfg.
  repeat split; assumption.
Qed.

Lemma main_all_queries_fail_witness :
  exists w',
    main iso8601_utc_column down_network sample_clock charts_ok
      sample_environment no_flags initial_world = (w', Ok tt) /\
    posts w' = 2%nat /\
    clock_reads w' = 0%nat /\
    filter is_save (trace w') = [].
Proof.
  destruct (main_all_queries_fail iso8601_utc_column down_network sample_clock charts_ok
              sample_environment no_flags
              "https://artifactory.example.org/artifactory" "reporter" "secret"
              ["libs-release"; "libs-snapshot"] initial_world
              (fun _ _ _ _ _ => I) eq_refl)
    as [w' [Hm [Hp [Hc [Hs _]]]]].
  exists w'. repeat split; assumption.
Defined.

(** ** Responses without items, and the sheet "Data" *)

(** X21.  A decoded response that is truthy and has no item, its
    "results" being absent or the empty list, ends the whole run:
    [process_results] prints its warning, [remove_timezone] raises
    [KeyError] on "created", and the loop is left, so that the
    repository names that follow are not queried. *)
Theorem no_items_ends_the_run
    (parse_column : list json -> option (option Z * list (option Z)))
    (network : nat -> string -> string -> string -> string -> http_outcome)
    (clock : nat -> datetime) (render_charts : DataFrame -> result unit)
    (artifactory_url username password repository_name reason : string)
    (rest : list string) (status : Z) (res : json) (w : World) :
  network (posts w) (artifactory_url ++ "/api/search/aql") username password
          (generate_aql_query repository_name)
    = Response status reason (inl res) ->
  ~ (400 <= status < 600) ->
  truthy res = true ->
  py_get res "results" (JList []) = Ok (JList []) ->
  for_each (repository_name :: rest)
    (process_repository parse_column network clock render_charts
       artifactory_url username password) w =
  (mkWorld (trace w ++
              [EPrint ("Processing repository: " ++ repository_name);
               EPrint ("Generated AQL query: " ++ generate_aql_query repository_name);
               request_for artifactory_url username password repository_name;
               EPrint "Warning: 'created' column is missing."])
           (S (posts w)) (clock_reads w),
   Raise (KeyError "created")).
Proof.
  intros Hnet Hstatus Htruthy Hres.
  assert (Htry : try_request (Response status reason (inl res))
                   (artifactory_url ++ "/api/search/aql") = inl res).
  { simpl. destruct (Z.leb_spec 400 status), (Z.ltb_spec status 600); simpl;
      first [ lia | reflexivity ]. }
  cbn [for_each].
  unfold bind at 1.
  unfold process_repository, execute_aql_query, process_results, processed_results,
    bind, lift, print, emit, ret, request_for.
  cbn [trace posts clock_reads].
  rewrite Hnet, Htry, Htruthy, Hres.
  cbn [rbind py_iter mapM DataFrame_of_rows has_column columns column
       trace posts clock_reads].
  rewrite <- !app_assoc. reflexivity.
Qed.

Lemma no_items_ends_the_run_witness :
  for_each ["libs-release"; "libs-snapshot"]
    (process_repository iso8601_utc_column
       (constant_network (Response 200 "OK" (inl no_items_response)))
       sample_clock charts_ok
       "https://artifactory.example.org/artifactory" "reporter" "secret") initial_world =
  (mkWorld [EPrint ("Processing repository: " ++ "libs-release");
            EPrint ("Generated AQL query: " ++ generate_aql_query "libs-release");
            request_for "https://artifactory.example.org/artifactory" "reporter"
                        "secret" "libs-release";
            EPrint "Warning: 'created' column is missing."] 1 0,
   Raise (KeyError "created")).
Proof.
  refine (no_items_ends_the_run iso8601_utc_column
            (constant_network (Response 200 "OK" (inl no_items_response)))
            sample_clock charts_ok
            "https://artifactory.example.org/artifactory" "reporter" "secret"
            "libs-release" "OK" ["libs-snapshot"] 200 no_items_response initial_world
            eq_refl _ eq_refl eq_refl).
  lia.
Defined.

Lemma process_results_names
    (parse_column : list json -> option (option Z * list (option Z)))
    (res : json) (w w' : World) (df : DataFrame) :
  process_results parse_column res w = (w', Ok df) ->
  columns df = [] \/ map fst (columns df) = normalized_columns.
Proof.
  unfold process_results, bind, lift. intros H.
  destruct (processed_results res) as [rows |]; [ | discriminate H ].
  destruct rows as [| r rows].
  - simpl in H. injection H as _ <-. left. reflexivity.
  - cbn [DataFrame_of_rows has_column columns column String.eqb Ascii.eqb Bool.eqb] in H.
    cbn [getitem columns column String.eqb Ascii.eqb Bool.eqb] in H.
    destruct (to_datetime parse_column _) as [c' |]; [ | discriminate H ].
    unfold ret in H. injection H as _ <-. right. reflexivity.
Qed.

(** X22.  The sheet "Data" of a saved workbook holds the thirteen columns
    of the normalized table followed by the derived columns "year",
    "month", "size_in_gb" and "month_year", in this order, and one line
    per line of the normalized table. *)
Theorem data_sheet_columns
    (parse_column : list json -> option (option Z * list (option Z)))
    (clock : nat -> datetime) (render_charts : DataFrame -> result unit)
    (res : json) (repository_name : string) (w0 w1 w2 : World)
    (df df1 : DataFrame) (r : result unit) (wb : Workbook) :
  process_results parse_column res w0 = (w1, Ok df) ->
  remove_timezone parse_column df = Ok df1 ->
  write_to_excel clock render_charts df1 repository_name w1 = (w2, r) ->
  In (ESave wb) (trace w2) ->
  ~ In (ESave wb) (trace w1) ->
  map fst (columns (wb_data wb))
    = (normalized_columns ++ ["year"; "month"; "size_in_gb"; "month_year"])%list /\
  nrows (wb_data wb) = nrows df.
Proof.
  intros Hp Hr Hw Hin Hnew.
  destruct (remove_timezone_names _ _ _ Hr) as [Hrows Hnames].
  assert (Hcols : map fst (columns df1) = normalized_columns).
  { rewrite Hnames. destruct (process_results_names _ _ _ _ _ Hp) as [Hempty | Hn];
      [ | exact Hn ].
    exfalso. unfold remove_timezone, getitem in Hr. rewrite Hempty in Hr.
    discriminate Hr. }
  unfold write_to_excel, bind, lift, datetime_now, emit, print, ret in Hw.
  run_io Hw; injection Hw as <- _; cbn [trace] in Hin;
    repeat (apply in_app_or in Hin; destruct Hin as [Hin | Hin]);
    try contradiction;
    repeat match goal with
    | H : In _ [_] |- _ => destruct H as [H | []]
    end;
    try discriminate;
    match goal with H : ESave _ = ESave _ |- _ => injection H as <- end;
    cbn [wb_data]; unfold setitem; cbn [columns nrows];
    rewrite !map_fst_set_column, Hcols; (split; [reflexivity | exact Hrows]).
Qed.

Lemma data_sheet_columns_witness :
  exists wb,
    In (ESave wb)
       (trace (fst (write_to_excel sample_clock charts_ok sample_naive_table
                      "libs-release" sample_warm_world))) /\
    map fst (columns (wb_data wb))
      = (normalized_columns ++ ["year"; "month"; "size_in_gb"; "month_year"])%list /\
    nrows (wb_data wb) = 2%nat.
Proof.
  eexists. split; [ vm_compute; left; reflexivity | ].
  refine (data_sheet_columns iso8601_utc_column sample_clock charts_ok sample_response
            "libs-release" initial_world sample_warm_world _ sample_table
            sample_naive_table _ _ eq_refl eq_refl (surjective_pairing _) _ _).
  - vm_compute. left. reflexivity.
  - vm_compute. intros [].
Defined.
